(** * Chat Management API (src/assignment/scr.py)

    A shallow embedding of the five request handlers of the service
    ([store_chat], [get_chat], [summarize_chat], [get_user_chats],
    [delete_chat]) together with the parts of their collaborators they
    rely on: the [bson] identifier, the document collection, the
    summarization endpoint and the exception mechanism of the language.

    Handlers are computations in a state-and-exception monad over a
    [World] that holds the collection, the source of fresh identifiers,
    the clock, the summarization endpoint and a chronological trace of
    every store access and every outgoing API request. *)

From Stdlib Require Import ZArith NArith List Bool Lia.
From Stdlib Require Import Strings.String Strings.Ascii Strings.Byte.
From Stdlib Require Import QArith_base DecimalString.
From Stdlib Require Import Sorting.Sorted Sorting.Permutation.
Import ListNotations.

Local Open Scope string_scope.
Local Open Scope Z_scope.

(* ================================================================== *)
(** ** Data model *)

(** [class Message(BaseModel)]: [timestamp] is a datetime, kept as a
    point on an integer time line. *)
Record Message := mkMessage {
  sender : string;
  text : string;
  timestamp : Z
}.

(** [class Chat(BaseModel)]: the body of [POST /chats]. *)
Record Chat := mkChat {
  user_id : string;
  messages : list Message
}.

(** The binary value of a [bson.ObjectId] (twelve bytes when well formed). *)
Definition ObjectId := list byte.

(** A record of the [chats] collection: [chat.dict()] extended with
    [created_at] by the handler and with [_id] by the driver. *)
Record Document := mkDocument {
  doc_id : ObjectId;
  doc_user_id : string;
  doc_messages : list Message;
  doc_created_at : Z
}.

(** A chat as the handlers return it: the document with [_id] replaced
    by its string form. *)
Record ChatJson := mkChatJson {
  json_id : string;
  json_user_id : string;
  json_messages : list Message;
  json_created_at : Z
}.

(* ================================================================== *)
(** ** Identifiers *)

Module ObjectIdCodec.

(** Value of one hexadecimal character, either case. *)
Definition hex_val (c : ascii) : option N :=
  let n := N_of_ascii c in
  if ((48 <=? n) && (n <=? 57))%N then Some (n - 48)%N
  else if ((97 <=? n) && (n <=? 102))%N then Some (n - 87)%N
  else if ((65 <=? n) && (n <=? 70))%N then Some (n - 55)%N
  else None.

(** Lower-case hexadecimal character of a value below sixteen. *)
Definition hex_digit (n : N) : ascii :=
  if (n <? 10)%N then ascii_of_N (48 + n) else ascii_of_N (87 + n).

(** [bytes.fromhex] on a string of hexadecimal characters. *)
Fixpoint bytes_fromhex (s : string) : option (list byte) :=
  match s with
  | EmptyString => Some []
  | String h (String l r) =>
      match hex_val h, hex_val l, bytes_fromhex r with
      | Some a, Some b, Some t =>
          option_map (fun x => x :: t) (Byte.of_N (16 * a + b))
      | _, _, _ => None
      end
  | String _ EmptyString => None
  end.

(** [bytes.hex]: two lower-case characters per byte. *)
Fixpoint hexlify (b : list byte) : string :=
  match b with
  | [] => EmptyString
  | x :: r =>
      String (hex_digit (Byte.to_N x / 16))
        (String (hex_digit (Byte.to_N x mod 16)) (hexlify r))
  end.

(** Modelled from the spec: [bson.ObjectId(s)] of the external [bson]
    package, which the spec describes as "a fixed-length hexadecimal
    token": a string of twenty-four hexadecimal characters denotes the
    twelve bytes it spells, anything else is no identifier. *)
Definition parse (s : string) : option ObjectId :=
  if (String.length s =? 24)%nat then bytes_fromhex s else None.

(** [ObjectId.is_valid]: whether the constructor accepts the string. *)
Definition is_valid (s : string) : bool :=
  match parse s with Some _ => true | None => false end.

(** [str(oid)]. *)
Definition to_str (oid : ObjectId) : string := hexlify oid.

Definition byte_of_N (n : N) : byte :=
  match Byte.of_N n with Some b => b | None => x00 end.

(** The [k] low-order bytes of [n], most significant first. *)
Fixpoint N_to_bytes (k : nat) (n : N) : list byte :=
  match k with
  | O => []
  | S k' => N_to_bytes k' (n / 256) ++ [byte_of_N (n mod 256)]
  end.

(** Modelled from the spec: [ObjectId()] as the driver generates it for
    a document without [_id] ("generates a unique identifier per stored
    chat"); the time, random and counter fields of the real generator
    are summed up in one number, the generator's state. *)
Definition generate (seed : N) : ObjectId := N_to_bytes 12 seed.

Definition eqb (a b : ObjectId) : bool :=
  if list_eq_dec Byte.byte_eq_dec a b then true else false.

End ObjectIdCodec.

(** [chat["_id"] = str(chat["_id"])]. *)
Definition stringify_id (d : Document) : ChatJson :=
  {| json_id := ObjectIdCodec.to_str (doc_id d);
     json_user_id := doc_user_id d;
     json_messages := doc_messages d;
     json_created_at := doc_created_at d |}.

(* ================================================================== *)
(** ** Exceptions *)

(** The exceptions the handlers meet, all of them subclasses of
    [Exception]: the framework's [HTTPException] and everything else
    (driver, transport and lookup errors), kept by its message. *)
Inductive exn :=
| HTTPException (status_code : Z) (detail : string)
| OtherException (msg : string).

(** [str(n)] of an integer. *)
Definition str_of_Z (z : Z) : string := NilZero.string_of_int (Z.to_int z).

(** Modelled from the spec: [str(e)]. The spec only says the 500 response
    carries "the underlying message"; for [HTTPException] this follows
    the framework's [__str__], "<status>: <detail>". *)
Definition str_exn (e : exn) : string :=
  match e with
  | HTTPException s d => str_of_Z s ++ ": " ++ d
  | OtherException m => m
  end.

Definition status_of (e : exn) : option Z :=
  match e with
  | HTTPException s _ => Some s
  | OtherException _ => None
  end.

(* ================================================================== *)
(** ** The summarization endpoint *)

Record ApiMessage := mkApiMessage {
  role : string;
  content : string
}.

(** The JSON body of the request to the chat-completions endpoint. *)
Record Payload := mkPayload {
  model : string;
  api_messages : list ApiMessage;
  temperature : Q;
  max_tokens : Z
}.

(** A decoded JSON value. Strings hold their text in UTF-8; the members
    of an object are those of the dictionary it decodes to. *)
Unset Elimination Schemes.
Inductive Json :=
| JNull
| JBool (b : bool)
| JInt (n : Z)
| JFloat (literal : string)
| JString (s : string)
| JArray (items : list Json)
| JObject (members : list (string * Json)).
Set Elimination Schemes.

(** What [client.post] yields: an exception of the transport (time-out,
    connection failure), or a response with its status code and the
    value at [json()["choices"][0]["message"]["content"]], of whatever
    JSON type, absent when the body is no JSON or lacks that path. *)
Inductive HttpReply :=
| TransportError (msg : string)
| Response (status_code : Z) (summary : option Json).

(* ================================================================== *)
(** ** The world and the monad *)

(** A filter document: the handlers only ever filter on [_id], on
    [user_id], or on both. *)
Record Query := mkQuery {
  q_id : option ObjectId;
  q_user_id : option string
}.

(** A [find] cursor: its filter and the options set on it. *)
Record Cursor := mkCursor {
  c_filter : Query;
  c_skip : Z;
  c_limit : Z;
  c_sort : option (string * Z)
}.

Inductive StoreOp :=
| InsertOne (d : Document)
| FindOne (q : Query)
| CountDocuments (q : Query)
| Find (c : Cursor)
| DeleteOne (q : Query).

Inductive Event :=
| StoreAccess (op : StoreOp)
| ApiPost (p : Payload).

Record World := mkWorld {
  stored : list Document;
  oid_seed : N;
  clock : Z;
  mistral : Payload -> HttpReply;
  trace : list Event
}.

Definition with_stored (w : World) (c : list Document) : World :=
  {| stored := c; oid_seed := oid_seed w; clock := clock w;
     mistral := mistral w; trace := trace w |}.

Definition with_seed (w : World) (s : N) : World :=
  {| stored := stored w; oid_seed := s; clock := clock w;
     mistral := mistral w; trace := trace w |}.

Definition log (w : World) (e : Event) : World :=
  {| stored := stored w; oid_seed := oid_seed w; clock := clock w;
     mistral := mistral w; trace := trace w ++ [e] |}.

(** A computation either raises or returns, and leaves a world behind. *)
Definition M (A : Type) : Type := World -> (exn + A) * World.

Definition ret {A} (a : A) : M A := fun w => (inr a, w).

Definition raise {A} (e : exn) : M A := fun w => (inl e, w).

Definition bind {A B} (m : M A) (k : A -> M B) : M B :=
  fun w =>
    match m w with
    | (inl e, w') => (inl e, w')
    | (inr a, w') => k a w'
    end.

(** [try: body / except Exception as e: handler e]. Every [exn] is an
    [Exception], [HTTPException] included. *)
Definition try_except {A} (body : M A) (handler : exn -> M A) : M A :=
  fun w =>
    match body w with
    | (inl e, w') => handler e w'
    | (inr a, w') => (inr a, w')
    end.

Declare Scope monad_scope.
Delimit Scope monad_scope with monad.
Notation "x <- m ;; k" := (bind m (fun x => k))
  (at level 100, m at next level, right associativity) : monad_scope.
Local Open Scope monad_scope.

(** The store accesses recorded in a trace. *)
Definition store_accesses (t : list Event) : list StoreOp :=
  flat_map (fun e => match e with StoreAccess op => [op] | ApiPost _ => [] end) t.

(** The API requests recorded in a trace. *)
Definition api_requests (t : list Event) : list Payload :=
  flat_map (fun e => match e with ApiPost p => [p] | StoreAccess _ => [] end) t.

(* ================================================================== *)
(** ** The document collection

    Modelled from the spec: the operations of the external document
    store ("the external persistence layer holding Chat records,
    queried/filtered/paginated by field") that the handlers call, on a
    collection kept in insertion order with unbounded integers. *)

Module collection.

(** Whether a document satisfies a filter. *)
Definition matches (q : Query) (d : Document) : bool :=
  match q_id q with
  | Some i => ObjectIdCodec.eqb (doc_id d) i
  | None => true
  end
  &&
  match q_user_id q with
  | Some u => String.eqb (doc_user_id d) u
  | None => true
  end.

(** [insert_one]: the driver gives the document a generated [_id]; the
    store refuses an [_id] that is already present. *)
Definition insert_one (user : string) (msgs : list Message) (created : Z)
  : M ObjectId :=
  fun w =>
    let oid := ObjectIdCodec.generate (oid_seed w) in
    let d := mkDocument oid user msgs created in
    let w1 := log (with_seed w (N.succ (oid_seed w))) (StoreAccess (InsertOne d)) in
    if existsb (fun x => ObjectIdCodec.eqb (doc_id x) oid) (stored w)
    then (inl (OtherException "E11000 duplicate key error"), w1)
    else (inr oid, with_stored w1 (stored w ++ [d])).

(** [find_one]: the first document that satisfies the filter, if any. *)
Definition find_one (q : Query) : M (option Document) :=
  fun w => (inr (List.find (matches q) (stored w)), log w (StoreAccess (FindOne q))).

(** [count_documents]. *)
Definition count_documents (q : Query) : M Z :=
  fun w =>
    (inr (Z.of_nat (List.length (List.filter (matches q) (stored w)))),
     log w (StoreAccess (CountDocuments q))).

(** The list without its first element satisfying [p], and how many
    elements were removed. *)
Fixpoint remove_first (p : Document -> bool) (l : list Document)
  : list Document * Z :=
  match l with
  | [] => ([], 0)
  | x :: r =>
      if p x then (r, 1)
      else let (r', n) := remove_first p r in (x :: r', n)
  end.

(** [delete_one]: removes the first document that satisfies the filter
    and reports [deleted_count]. *)
Definition delete_one (q : Query) : M Z :=
  fun w =>
    let (rest, n) := remove_first (matches q) (stored w) in
    (inr n, with_stored (log w (StoreAccess (DeleteOne q))) rest).

(** [find]: a cursor on the filter, nothing is read yet. *)
Definition find (q : Query) : Cursor :=
  {| c_filter := q; c_skip := 0; c_limit := 0; c_sort := None |}.

(** [Cursor.skip]: a negative count is a [ValueError]. *)
Definition skip (c : Cursor) (n : Z) : M Cursor :=
  if n <? 0 then raise (OtherException "skip must be >= 0")
  else ret {| c_filter := c_filter c; c_skip := n;
              c_limit := c_limit c; c_sort := c_sort c |}.

(** [Cursor.limit]. *)
Definition limit (c : Cursor) (n : Z) : Cursor :=
  {| c_filter := c_filter c; c_skip := c_skip c;
     c_limit := n; c_sort := c_sort c |}.

(** [Cursor.sort]. *)
Definition sort (c : Cursor) (key : string) (direction : Z) : Cursor :=
  {| c_filter := c_filter c; c_skip := c_skip c;
     c_limit := c_limit c; c_sort := Some (key, direction) |}.

Fixpoint insert_sorted (before : Document -> Document -> bool)
  (d : Document) (l : list Document) : list Document :=
  match l with
  | [] => [d]
  | x :: r => if before d x then d :: x :: r else x :: insert_sorted before d r
  end.

(** A stable insertion sort. *)
Definition sort_docs (before : Document -> Document -> bool)
  (l : list Document) : list Document :=
  fold_right (insert_sorted before) [] l.

(** Newest first. *)
Definition created_desc (d x : Document) : bool :=
  doc_created_at x <=? doc_created_at d.

(** Oldest first. *)
Definition created_asc (d x : Document) : bool :=
  doc_created_at d <=? doc_created_at x.

(** The order a sort option asks for. Only [created_at] is a sort key
    here; every document compares equal on any other key, which leaves
    the order as it is. *)
Definition apply_sort (o : option (string * Z)) (l : list Document)
  : list Document :=
  match o with
  | Some (key, direction) =>
      if String.eqb key "created_at" then
        if direction <? 0 then sort_docs created_desc l
        else sort_docs created_asc l
      else l
  | None => l
  end.

(** What a cursor yields: the store filters, then sorts, then skips,
    then limits, in this order whatever the order in which the options
    were set on the cursor. A limit of zero is no limit. *)
Definition run_cursor (c : Cursor) (docs : list Document) : list Document :=
  let matched := List.filter (matches (c_filter c)) docs in
  let ordered := apply_sort (c_sort c) matched in
  let skipped := skipn (Z.to_nat (c_skip c)) ordered in
  if c_limit c =? 0 then skipped
  else firstn (Z.to_nat (Z.abs (c_limit c))) skipped.

(** [to_list(length)]: at most [length] documents of the cursor. *)
Definition to_list (c : Cursor) (length : Z) : M (list Document) :=
  fun w =>
    (inr (firstn (Z.to_nat length) (run_cursor c (stored w))),
     log w (StoreAccess (Find c))).

End collection.

(* ================================================================== *)
(** ** The handlers *)

Definition nl : string := String (ascii_of_nat 10) EmptyString.

(** [ObjectId(s)]: raises [InvalidId] on a string that is no identifier. *)
Definition ObjectId_of (s : string) : M ObjectId :=
  match ObjectIdCodec.parse s with
  | Some oid => ret oid
  | None => raise (OtherException (s ++ " is not a valid ObjectId"))
  end.

(** [datetime.utcnow()]. *)
Definition utcnow : M Z := fun w => (inr (clock w), w).

(** [client.post(MISTRAL_API_URL, json=payload, headers=headers)]. *)
Definition post (p : Payload) : M (Z * option Json) :=
  fun w =>
    let w1 := log w (ApiPost p) in
    match mistral w p with
    | TransportError m => (inl (OtherException m), w1)
    | Response s body => (inr (s, body), w1)
    end.

Record StoreChatResponse := mkStoreChatResponse {
  sc_message : string;
  sc_chat_id : string
}.

Record SummaryResponse := mkSummaryResponse {
  sm_conversation_id : string;
  sm_summary : Json;
  sm_summary_length : Z
}.

Record UserChatsResponse := mkUserChatsResponse {
  uc_user_id : string;
  uc_chats : list ChatJson;
  uc_page : Z;
  uc_limit : Z;
  uc_total_chats : Z;
  uc_total_pages : Z
}.

Record DeleteResponse := mkDeleteResponse {
  dr_message : string;
  dr_deleted_count : Z
}.

(** [POST /chats]. *)
Definition store_chat (chat : Chat) : M StoreChatResponse :=
  created_at <- utcnow ;;
  inserted_id <- collection.insert_one (user_id chat) (messages chat) created_at ;;
  ret {| sc_message := "Chat stored successfully!";
         sc_chat_id := ObjectIdCodec.to_str inserted_id |}.

(** The [try] block of [get_chat]. *)
Definition get_chat_body (chat_id : string) : M ChatJson :=
  if negb (ObjectIdCodec.is_valid chat_id) then
    raise (HTTPException 400 "Invalid chat ID")
  else
    oid <- ObjectId_of chat_id ;;
    chat <- collection.find_one {| q_id := Some oid; q_user_id := None |} ;;
    match chat with
    | Some c => ret (stringify_id c)
    | None => raise (HTTPException 404 "Chat not found")
    end.

(** [GET /chats/{chat_id}]. *)
Definition get_chat (chat_id : string) : M ChatJson :=
  try_except (get_chat_body chat_id)
    (fun e => raise (HTTPException 500 ("Server error: " ++ str_exn e))).

(** A byte that continues a UTF-8 sequence (10xxxxxx). *)
Definition is_continuation (c : ascii) : bool :=
  let n := N_of_ascii c in ((128 <=? n) && (n <? 192))%N.

(** The number of code points of a text held in UTF-8. *)
Fixpoint codepoints (s : string) : nat :=
  match s with
  | EmptyString => O
  | String c r => if is_continuation c then codepoints r else S (codepoints r)
  end.

(** [len(v)] of a decoded JSON value: the code points of a string, the
    items of an array, the keys of an object; a [TypeError] for the
    values that have no length. *)
Definition py_len (v : Json) : exn + Z :=
  match v with
  | JString s => inr (Z.of_nat (codepoints s))
  | JArray items => inr (Z.of_nat (List.length items))
  | JObject members => inr (Z.of_nat (List.length members))
  | JNull => inl (OtherException "object of type 'NoneType' has no len()")
  | JBool _ => inl (OtherException "object of type 'bool' has no len()")
  | JInt _ => inl (OtherException "object of type 'int' has no len()")
  | JFloat _ => inl (OtherException "object of type 'float' has no len()")
  end.

(** [chat_text = "\n".join([msg["text"] for msg in chat["messages"]])]. *)
Definition chat_text_of (msgs : list Message) : string :=
  String.concat nl (map text msgs).

(** The [payload] dictionary of [summarize_chat]. *)
Definition summary_payload (chat_text : string) : Payload :=
  {| model := "mistral-large-latest";
     api_messages :=
       [ {| role := "system"; content := "Summarize conversations concisely." |};
         {| role := "user";
            content := "Summarize this conversation:" ++ nl ++ nl ++ chat_text |} ];
     temperature := Qmake 7 10;
     max_tokens := 300 |}.

(** The [try] block of [summarize_chat]. *)
Definition summarize_chat_body (conversation_id : string) : M SummaryResponse :=
  if negb (ObjectIdCodec.is_valid conversation_id) then
    raise (HTTPException 400 "Invalid conversation ID")
  else
    oid <- ObjectId_of conversation_id ;;
    chat <- collection.find_one {| q_id := Some oid; q_user_id := None |} ;;
    match chat with
    | None => raise (HTTPException 404 "Chat not found")
    | Some c =>
        let chat_text := chat_text_of (doc_messages c) in
        let payload := summary_payload chat_text in
        response <- post payload ;;
        if negb (fst response =? 200) then
          raise (HTTPException 500
                   ("Summarization failed: " ++ str_of_Z (fst response)))
        else
          match snd response with
          | None => raise (OtherException "'choices'")
          | Some summary =>
              match py_len summary with
              | inl e => raise e
              | inr n =>
                  ret {| sm_conversation_id := conversation_id;
                         sm_summary := summary;
                         sm_summary_length := n |}
              end
          end
    end.

(** [POST /chats/summarize]. *)
Definition summarize_chat (conversation_id : string) : M SummaryResponse :=
  try_except (summarize_chat_body conversation_id)
    (fun e => raise (HTTPException 500 ("Summarization error: " ++ str_exn e))).

(** [math.ceil(a / b)]. The quotient is a binary64 number in the source;
    it is the exact one here, which gives the same ceiling for every
    count below 2^46 (a non-integer quotient is at least 1/100 away from
    the next integer when [b <= 100], more than the rounding error of the
    division). Division by zero raises. *)
Definition math_ceil_div (a b : Z) : M Z :=
  if b =? 0 then raise (OtherException "division by zero")
  else ret (- ((- a) / b)).

(** The [try] block of [get_user_chats]. The framework has checked
    [page >= 1] and [1 <= limit <= 100] before the handler runs. *)
Definition get_user_chats_body (user : string) (page limit : Z)
  : M UserChatsResponse :=
  let by_user := {| q_id := None; q_user_id := Some user |} in
  total_chats <- collection.count_documents by_user ;;
  total_pages <- math_ceil_div total_chats limit ;;
  if (page >? total_pages) && (total_pages >? 0) then
    raise (HTTPException 404
             ("Page " ++ str_of_Z page ++ " does not exist. Total pages: "
              ++ str_of_Z total_pages))
  else
    skipped <- collection.skip (collection.find by_user) ((page - 1) * limit) ;;
    let cursor :=
      collection.sort (collection.limit skipped limit) "created_at" (-1) in
    chats <- collection.to_list cursor limit ;;
    ret {| uc_user_id := user;
           uc_chats := map stringify_id chats;
           uc_page := page;
           uc_limit := limit;
           uc_total_chats := total_chats;
           uc_total_pages := total_pages |}.

(** [GET /users/{user_id}/chats]. *)
Definition get_user_chats (user : string) (page limit : Z)
  : M UserChatsResponse :=
  try_except (get_user_chats_body user page limit)
    (fun e => raise (HTTPException 500 ("Error retrieving chats: " ++ str_exn e))).

(** Truth value of the optional [user_id] query parameter: [None] and
    the empty string are false. *)
Definition truthy (o : option string) : bool :=
  match o with
  | Some s => negb (String.eqb s "")
  | None => false
  end.

(** The [delete_query] dictionary of [delete_chat]. *)
Definition delete_query_of (oid : ObjectId) (owner : option string) : Query :=
  let delete_query := {| q_id := Some oid; q_user_id := None |} in
  if truthy owner then {| q_id := q_id delete_query; q_user_id := owner |}
  else delete_query.

(** The [try] block of [delete_chat]. *)
Definition delete_chat_body (conversation_id : string) (owner : option string)
  : M DeleteResponse :=
  if negb (ObjectIdCodec.is_valid conversation_id) then
    raise (HTTPException 400 "Invalid chat ID")
  else
    oid <- ObjectId_of conversation_id ;;
    deleted_count <- collection.delete_one (delete_query_of oid owner) ;;
    if deleted_count =? 0 then
      raise (HTTPException 404
               ("Chat not found" ++
                (if truthy owner
                 then " or not associated with the specified user" else "")))
    else
      ret {| dr_message := "Chat deleted successfully!";
             dr_deleted_count := deleted_count |}.

(** [DELETE /chats/{conversation_id}]. *)
Definition delete_chat (conversation_id : string) (owner : option string)
  : M DeleteResponse :=
  try_except (delete_chat_body conversation_id owner)
    (fun e => raise (HTTPException 500 ("Error deleting chat: " ++ str_exn e))).

(* ================================================================== *)
(** ** The user's chats, and sample worlds *)

(** The status code a handler's outcome is answered with: 200 for a
    returned value, the exception's own for an [HTTPException]. *)
Definition status_of_result {A} (r : (exn + A) * World) : option Z :=
  match fst r with
  | inr _ => Some 200
  | inl e => status_of e
  end.

(** The stored chats whose [user_id] is [user], in insertion order. *)
Definition chats_of_user (user : string) (docs : list Document) : list Document :=
  List.filter (fun d => String.eqb (doc_user_id d) user) docs.

(** The filter [{"_id": oid}]. *)
Definition by_id (oid : ObjectId) : Query :=
  {| q_id := Some oid; q_user_id := None |}.


Module Samples.

Definition summarizer : Payload -> HttpReply :=
  fun _ => Response 200 (Some (JString "A short greeting.")).

Definition empty_world : World :=
  {| stored := []; oid_seed := 255; clock := 1000;
     mistral := summarizer; trace := [] |}.

Definition hi_chat : Chat :=
  {| user_id := "u1"; messages := [mkMessage "a" "hi" 5; mkMessage "b" "yo" 6] |}.

(** The world after [hi_chat] was stored: one chat, owned by "u1",
    under the identifier [id_ff]. *)
Definition one_chat_world : World := snd (store_chat hi_chat empty_world).

Definition id_ff : string := "0000000000000000000000ff".

Definition id_absent : string := "0000000000000000000000aa".

(** Fifteen chats of "u2", created at times 1 to 15. *)
Definition fifteen_chats : list Document :=
  map (fun n => mkDocument (ObjectIdCodec.generate (N.of_nat n)) "u2" []
                  (Z.of_nat n))
      (seq 1 15).

Definition fifteen_world : World :=
  {| stored := fifteen_chats; oid_seed := 16; clock := 2000;
     mistral := summarizer; trace := [] |}.

(** [one_chat_world] with an endpoint that is out of service. *)
Definition failing_summarizer_world : World :=
  {| stored := stored one_chat_world;
     oid_seed := oid_seed one_chat_world;
     clock := clock one_chat_world;
     mistral := fun _ => Response 503 None;
     trace := [] |}.




End Samples.

(** The first sentence of the deletion contract, read on the handler: a
    call whose [owner_id] differs from the owner of the record with the
    given identifier leaves the collection as it was. *)
Definition mismatched_owner_keeps_record : Prop :=
  forall (w : World) (id : string) (oid : ObjectId) (owner : string),
    ObjectIdCodec.parse id = Some oid ->
    (forall d, In d (stored w) -> doc_id d = oid -> doc_user_id d <> owner) ->
    stored (snd (delete_chat id (Some owner) w)) = stored w.

(** No two stored chats carry the same identifier. *)
Definition unique_ids (docs : list Document) : Prop :=
  NoDup (map doc_id docs).


(* ================================================================== *)
(** * Properties *)

(** ** The identifier codec *)

Module ObjectIdFacts.
Import ObjectIdCodec.

Lemma eqb_eq (a b : ObjectId) : eqb a b = true <-> a = b.
Proof.
  unfold eqb. destruct (list_eq_dec Byte.byte_eq_dec a b); split;
    congruence.
Qed.

Lemma eqb_refl (a : ObjectId) : eqb a a = true.
Proof. now apply eqb_eq. Qed.

Lemma eqb_neq (a b : ObjectId) : eqb a b = false <-> a <> b.
Proof.
  unfold eqb. destruct (list_eq_dec Byte.byte_eq_dec a b); split;
    congruence.
Qed.

(** Both characters of a byte read back as its two halves, and the
    halves put the byte together again. *)
Lemma byte_roundtrip (x : byte) :
  hex_val (hex_digit (Byte.to_N x / 16)) = Some (Byte.to_N x / 16)%N /\
  hex_val (hex_digit (Byte.to_N x mod 16)) = Some (Byte.to_N x mod 16)%N /\
  Byte.of_N (16 * (Byte.to_N x / 16) + Byte.to_N x mod 16) = Some x.
Proof. destruct x; vm_compute; repeat split. Qed.

Lemma bytes_fromhex_hexlify (b : list byte) :
  bytes_fromhex (hexlify b) = Some b.
Proof.
  induction b as [|x r IH]; [reflexivity|].
  destruct (byte_roundtrip x) as (Hh & Hl & Hb).
  cbn [hexlify bytes_fromhex]. rewrite Hh, Hl, IH, Hb. reflexivity.
Qed.

Lemma length_hexlify (b : list byte) :
  String.length (hexlify b) = (2 * List.length b)%nat.
Proof. induction b as [|x r IH]; cbn [hexlify String.length List.length]; lia. Qed.

(** An identifier of twelve bytes is read back from its string form. *)
Lemma parse_to_str (oid : ObjectId) :
  List.length oid = 12%nat -> parse (to_str oid) = Some oid.
Proof.
  intros Hlen. unfold parse, to_str.
  rewrite length_hexlify, Hlen. cbn [Nat.mul Nat.add Nat.eqb].
  apply bytes_fromhex_hexlify.
Qed.

Lemma length_N_to_bytes (k : nat) (n : N) : List.length (N_to_bytes k n) = k.
Proof.
  revert n. induction k as [|k IH]; intros n; [reflexivity|].
  cbn [N_to_bytes]. rewrite length_app, IH. cbn. lia.
Qed.

Lemma length_generate (seed : N) : List.length (generate seed) = 12%nat.
Proof. apply length_N_to_bytes. Qed.

Lemma is_valid_parse (s : string) :
  is_valid s = true <-> exists oid, parse s = Some oid.
Proof.
  unfold is_valid. destruct (parse s) as [oid|]; split.
  - eauto.
  - reflexivity.
  - discriminate.
  - intros [oid H]. discriminate.
Qed.

Lemma parse_is_valid (s : string) (oid : ObjectId) :
  parse s = Some oid -> is_valid s = true.
Proof. intros H. apply is_valid_parse. eauto. Qed.

End ObjectIdFacts.

(* ------------------------------------------------------------------ *)
(** ** What the store operations do *)

Module StoreFacts.
Import collection.

Lemma matches_by_id (oid : ObjectId) (d : Document) :
  matches (by_id oid) d = ObjectIdCodec.eqb (doc_id d) oid.
Proof. unfold matches, by_id; cbn. apply andb_true_r. Qed.

Lemma matches_by_user (user : string) (d : Document) :
  matches {| q_id := None; q_user_id := Some user |} d
  = String.eqb (doc_user_id d) user.
Proof. reflexivity. Qed.

Lemma filter_by_user (user : string) (docs : list Document) :
  List.filter (matches {| q_id := None; q_user_id := Some user |}) docs
  = chats_of_user user docs.
Proof. reflexivity. Qed.

(** No document satisfies the filter: [find] finds nothing. *)
Lemma find_none_iff (p : Document -> bool) (l : list Document) :
  List.find p l = None <-> forall d, In d l -> p d = false.
Proof.
  split.
  - intros H d Hd. exact (find_none p l H d Hd).
  - induction l as [|x r IH]; intros H; [reflexivity|].
    cbn. rewrite (H x (or_introl eq_refl)). apply IH.
    intros d Hd. apply H. now right.
Qed.



(** [remove_first] takes out the first match, if there is one. *)
Lemma remove_first_spec (p : Document -> bool) (l : list Document) :
  match List.find p l with
  | None => remove_first p l = (l, 0)
  | Some d =>
      exists l1 l2,
        l = (l1 ++ d :: l2)%list /\ (forall x, In x l1 -> p x = false) /\
        p d = true /\ remove_first p l = ((l1 ++ l2)%list, 1)
  end.
Proof.
  induction l as [|x r IH]; [reflexivity|].
  cbn [List.find remove_first]. destruct (p x) eqn:Hx.
  - exists [], r. repeat split; auto. intros y [].
  - destruct (List.find p r) as [d|].
    + destruct IH as (l1 & l2 & -> & Hl1 & Hd & ->).
      exists (x :: l1), l2. repeat split; auto.
      intros y [<-|Hy]; auto.
    + now rewrite IH.
Qed.

Lemma remove_first_count (p : Document -> bool) (l : list Document) :
  snd (remove_first p l) = 0 \/ snd (remove_first p l) = 1.
Proof.
  pose proof (remove_first_spec p l) as H.
  destruct (List.find p l).
  - destruct H as (l1 & l2 & _ & _ & _ & ->). now right.
  - rewrite H. now left.
Qed.

Lemma remove_first_length (p : Document -> bool) (l : list Document) :
  Z.of_nat (List.length l)
  = Z.of_nat (List.length (fst (remove_first p l))) + snd (remove_first p l).
Proof.
  pose proof (remove_first_spec p l) as H.
  destruct (List.find p l).
  - destruct H as (l1 & l2 & -> & _ & _ & ->). cbn [fst snd].
    rewrite !length_app. cbn [List.length]. lia.
  - rewrite H. cbn. lia.
Qed.

End StoreFacts.

(* ------------------------------------------------------------------ *)
(** ** How the handlers run *)

Section HandlerSteps.
Import ObjectIdFacts StoreFacts.

Variable w : World.
Variable id : string.

Lemma get_chat_body_invalid :
  ObjectIdCodec.is_valid id = false ->
  get_chat_body id w = (inl (HTTPException 400 "Invalid chat ID"), w).
Proof. intros H. unfold get_chat_body. now rewrite H. Qed.

Lemma summarize_chat_body_invalid :
  ObjectIdCodec.is_valid id = false ->
  summarize_chat_body id w
  = (inl (HTTPException 400 "Invalid conversation ID"), w).
Proof. intros H. unfold summarize_chat_body. now rewrite H. Qed.

Lemma delete_chat_body_invalid (owner : option string) :
  ObjectIdCodec.is_valid id = false ->
  delete_chat_body id owner w = (inl (HTTPException 400 "Invalid chat ID"), w).
Proof. intros H. unfold delete_chat_body. now rewrite H. Qed.

Variable oid : ObjectId.
Hypothesis Hparse : ObjectIdCodec.parse id = Some oid.

Lemma get_chat_body_valid :
  get_chat_body id w =
  match List.find (collection.matches (by_id oid)) (stored w) with
  | Some c => (inr (stringify_id c), log w (StoreAccess (FindOne (by_id oid))))
  | None => (inl (HTTPException 404 "Chat not found"),
             log w (StoreAccess (FindOne (by_id oid))))
  end.
Proof.
  unfold get_chat_body, ObjectId_of.
  rewrite (parse_is_valid _ _ Hparse), Hparse.
  unfold bind, ret, collection.find_one; cbn [negb].
  fold (by_id oid). now destruct (List.find _ _).
Qed.

Lemma summarize_chat_body_valid :
  summarize_chat_body id w =
  let w1 := log w (StoreAccess (FindOne (by_id oid))) in
  match List.find (collection.matches (by_id oid)) (stored w) with
  | None => (inl (HTTPException 404 "Chat not found"), w1)
  | Some c =>
      let payload := summary_payload (chat_text_of (doc_messages c)) in
      let w2 := log w1 (ApiPost payload) in
      match mistral w payload with
      | TransportError m => (inl (OtherException m), w2)
      | Response s body =>
          if negb (s =? 200) then
            (inl (HTTPException 500 ("Summarization failed: " ++ str_of_Z s)), w2)
          else
            match body with
            | None => (inl (OtherException "'choices'"), w2)
            | Some summary =>
                match py_len summary with
                | inl e => (inl e, w2)
                | inr n =>
                    (inr {| sm_conversation_id := id;
                            sm_summary := summary;
                            sm_summary_length := n |}, w2)
                end
            end
      end
  end.
Proof.
  unfold summarize_chat_body, ObjectId_of.
  rewrite (parse_is_valid _ _ Hparse), Hparse.
  unfold bind, ret, collection.find_one, post; cbn [negb].
  fold (by_id oid). destruct (List.find _ _) as [c|]; [|reflexivity].
  cbn [mistral log]. destruct (mistral w _) as [m|s body]; [reflexivity|].
  cbn [fst snd]. destruct (negb (s =? 200)); [reflexivity|].
  destruct body as [summary|]; [|reflexivity].
  now destruct (py_len summary).
Qed.

Lemma delete_chat_body_valid (owner : option string) :
  delete_chat_body id owner w =
  let q := delete_query_of oid owner in
  let w1 := with_stored (log w (StoreAccess (DeleteOne q)))
              (fst (collection.remove_first (collection.matches q) (stored w))) in
  let n := snd (collection.remove_first (collection.matches q) (stored w)) in
  if n =? 0 then
    (inl (HTTPException 404
            ("Chat not found" ++
             (if truthy owner
              then " or not associated with the specified user" else ""))), w1)
  else (inr {| dr_message := "Chat deleted successfully!";
               dr_deleted_count := n |}, w1).
Proof.
  unfold delete_chat_body, ObjectId_of.
  rewrite (parse_is_valid _ _ Hparse), Hparse.
  unfold bind, ret, collection.delete_one; cbn [negb].
  destruct (collection.remove_first _ _) as [rest n]. cbn [fst snd].
  now destruct (n =? 0).
Qed.

End HandlerSteps.

(* ------------------------------------------------------------------ *)
(** ** Malformed and absent identifiers *)

Section Identifiers.
Import ObjectIdFacts StoreFacts.

(** Inside the [try] block a malformed identifier raises the 400
    exception, in all three handlers, with the world untouched. *)
Lemma malformed_id_raises_400_in_body (id : string) (owner : option string)
  (w : World) :
  ObjectIdCodec.is_valid id = false ->
  get_chat_body id w = (inl (HTTPException 400 "Invalid chat ID"), w) /\
  summarize_chat_body id w
    = (inl (HTTPException 400 "Invalid conversation ID"), w) /\
  delete_chat_body id owner w = (inl (HTTPException 400 "Invalid chat ID"), w).
Proof.
  intros H. repeat split.
  - now apply get_chat_body_invalid.
  - now apply summarize_chat_body_invalid.
  - now apply delete_chat_body_invalid.
Qed.

(** A malformed identifier stops [delete_chat] with the world as it
    was. *)
Lemma delete_chat_malformed_keeps_world (id : string) (owner : option string)
  (w : World) :
  ObjectIdCodec.is_valid id = false ->
  exists e, delete_chat id owner w = (inl e, w).
Proof.
  intros H. unfold delete_chat, try_except.
  rewrite (delete_chat_body_invalid w id owner H).
  eexists. reflexivity.
Qed.

(** C1 (as the code behaves): a malformed identifier makes [get_chat],
    [summarize_chat] and [delete_chat] fail with the world, and so the
    trace of store accesses, exactly as it was; but the 400 exception
    raised in the [try] block is caught by [except Exception] and the
    response carries status 500, not 400. *)
Theorem malformed_id_answered_with_500 (id : string) (owner : option string)
  (w : World) :
  ObjectIdCodec.is_valid id = false ->
  get_chat id w
    = (inl (HTTPException 500
              ("Server error: " ++ str_exn (HTTPException 400 "Invalid chat ID"))),
       w) /\
  summarize_chat id w
    = (inl (HTTPException 500
              ("Summarization error: "
               ++ str_exn (HTTPException 400 "Invalid conversation ID"))),
       w) /\
  delete_chat id owner w
    = (inl (HTTPException 500
              ("Error deleting chat: "
               ++ str_exn (HTTPException 400 "Invalid chat ID"))),
       w).
Proof.
  intros H.
  destruct (malformed_id_raises_400_in_body id owner w H) as (Hg & Hs & Hd).
  unfold get_chat, summarize_chat, delete_chat, try_except.
  rewrite Hg, Hs, Hd. repeat split.
Qed.

Lemma malformed_id_answered_with_500_witness :
  ObjectIdCodec.is_valid "xyz" = false /\
  status_of_result (get_chat "xyz" Samples.one_chat_world) = Some 500 /\
  store_accesses (trace (snd (get_chat "xyz" Samples.one_chat_world)))
    = store_accesses (trace Samples.one_chat_world).
Proof.
  split; [reflexivity|].
  destruct (malformed_id_answered_with_500 "xyz" None Samples.one_chat_world
              eq_refl) as (Hg & _ & _).
  rewrite Hg. split; reflexivity.
Defined.

(** The lookup of an identifier no record carries finds nothing. *)
Lemma find_absent (oid : ObjectId) (docs : list Document) :
  (forall d, In d docs -> doc_id d <> oid) ->
  List.find (collection.matches (by_id oid)) docs = None.
Proof.
  intros Habs. apply find_none_iff. intros d Hd.
  rewrite matches_by_id. apply eqb_neq. now apply Habs.
Qed.

(** C2 (as the code behaves): for a well-formed identifier that no
    stored chat carries, [get_chat] and [summarize_chat] raise the 404
    exception in their [try] block, and answer with status 500 because
    [except Exception] catches it. *)
Theorem absent_chat_answered_with_500 (id : string) (oid : ObjectId)
  (w : World) :
  ObjectIdCodec.parse id = Some oid ->
  (forall d, In d (stored w) -> doc_id d <> oid) ->
  fst (get_chat_body id w) = inl (HTTPException 404 "Chat not found") /\
  fst (summarize_chat_body id w) = inl (HTTPException 404 "Chat not found") /\
  fst (get_chat id w)
    = inl (HTTPException 500
             ("Server error: " ++ str_exn (HTTPException 404 "Chat not found"))) /\
  fst (summarize_chat id w)
    = inl (HTTPException 500
             ("Summarization error: "
              ++ str_exn (HTTPException 404 "Chat not found"))).
Proof.
  intros Hparse Habs. apply find_absent in Habs.
  unfold get_chat, summarize_chat, try_except.
  rewrite (get_chat_body_valid w id oid Hparse),
          (summarize_chat_body_valid w id oid Hparse).
  cbv zeta. rewrite Habs. repeat split.
Qed.

Lemma absent_chat_answered_with_500_witness :
  status_of_result (get_chat Samples.id_absent Samples.one_chat_world) = Some 500 /\
  status_of_result (summarize_chat Samples.id_absent Samples.one_chat_world)
    = Some 500.
Proof.
  assert (Hp : ObjectIdCodec.parse Samples.id_absent
               = Some (ObjectIdCodec.generate 170)) by reflexivity.
  assert (Ha : forall d, In d (stored Samples.one_chat_world) ->
                         doc_id d <> ObjectIdCodec.generate 170).
  { intros d [<-|[]]. discriminate. }
  destruct (absent_chat_answered_with_500 _ _ _ Hp Ha) as (_ & _ & Hg & Hs).
  unfold status_of_result.
  rewrite (surjective_pairing (get_chat _ _)), Hg.
  rewrite (surjective_pairing (summarize_chat _ _)), Hs.
  split; reflexivity.
Defined.

End Identifiers.

(* ------------------------------------------------------------------ *)
(** ** Store, then fetch *)

Section RoundTrip.
Import ObjectIdFacts StoreFacts.

(** What [store_chat] does, by whether the generated identifier is
    already taken. *)
Lemma store_chat_runs (chat : Chat) (w : World) :
  let oid := ObjectIdCodec.generate (oid_seed w) in
  let d := mkDocument oid (user_id chat) (messages chat) (clock w) in
  let w1 := log (with_seed w (N.succ (oid_seed w))) (StoreAccess (InsertOne d)) in
  store_chat chat w =
  if existsb (fun x => ObjectIdCodec.eqb (doc_id x) oid) (stored w)
  then (inl (OtherException "E11000 duplicate key error"), w1)
  else (inr {| sc_message := "Chat stored successfully!";
               sc_chat_id := ObjectIdCodec.to_str oid |},
        with_stored w1 (stored w ++ [d])).
Proof.
  cbv zeta. unfold store_chat, bind, utcnow, collection.insert_one, ret.
  now destruct (existsb _ _).
Qed.

(** [store_chat] succeeds whenever the generated identifier is new. *)
Lemma store_chat_succeeds (chat : Chat) (w : World) :
  (forall d, In d (stored w) ->
             doc_id d <> ObjectIdCodec.generate (oid_seed w)) ->
  exists r w1, store_chat chat w = (inr r, w1).
Proof.
  intros Hfresh. rewrite store_chat_runs.
  replace (existsb _ (stored w)) with false; [eauto|].
  symmetry. apply not_true_is_false. intros H.
  apply existsb_exists in H as (d & Hd & He).
  apply eqb_eq in He. exact (Hfresh d Hd He).
Qed.



End RoundTrip.

(* ------------------------------------------------------------------ *)
(** ** Deletion *)

Section Deletion.
Import ObjectIdFacts StoreFacts.

(** The outcome of [delete_chat] on a well-formed identifier. *)
Lemma delete_chat_valid (id : string) (oid : ObjectId) (owner : option string)
  (w : World) :
  ObjectIdCodec.parse id = Some oid ->
  delete_chat id owner w =
  let q := delete_query_of oid owner in
  let w1 := with_stored (log w (StoreAccess (DeleteOne q)))
              (fst (collection.remove_first (collection.matches q) (stored w))) in
  let n := snd (collection.remove_first (collection.matches q) (stored w)) in
  if n =? 0 then
    (inl (HTTPException 500
            ("Error deleting chat: " ++
             str_exn (HTTPException 404
                        ("Chat not found" ++
                         (if truthy owner
                          then " or not associated with the specified user"
                          else ""))))), w1)
  else (inr {| dr_message := "Chat deleted successfully!";
               dr_deleted_count := n |}, w1).
Proof.
  intros Hparse. unfold delete_chat, try_except.
  rewrite (delete_chat_body_valid w id oid Hparse). cbv zeta.
  now destruct (_ =? 0).
Qed.

(** Whatever the identifier and the owner, the collection after
    [delete_chat] is the one before, or the one before without one of
    its records. *)
Lemma delete_chat_at_most_one (id : string) (owner : option string) (w : World) :
  stored (snd (delete_chat id owner w)) = stored w \/
  exists l1 x l2,
    stored w = (l1 ++ x :: l2)%list /\
    stored (snd (delete_chat id owner w)) = (l1 ++ l2)%list.
Proof.
  destruct (ObjectIdCodec.parse id) as [oid|] eqn:Hparse.
  - rewrite (delete_chat_valid id oid owner w Hparse). cbv zeta.
    pose proof (remove_first_spec
                  (collection.matches (delete_query_of oid owner)) (stored w)) as H.
    destruct (List.find _ _) as [d|].
    + destruct H as (l1 & l2 & Hw & _ & _ & Hr). right. exists l1, d, l2.
      rewrite Hr. cbn. auto.
    + rewrite H. now left.
  - left. assert (Hv : ObjectIdCodec.is_valid id = false)
      by (unfold ObjectIdCodec.is_valid; now rewrite Hparse).
    destruct (delete_chat_malformed_keeps_world id owner w Hv) as [e ->].
    reflexivity.
Qed.

End Deletion.


(* ------------------------------------------------------------------ *)
(** ** Deletion and ownership *)

Section Ownership.
Import ObjectIdFacts StoreFacts.

(** The filter [delete_chat] builds: the owner takes part in it only
    when it is a non-empty string. *)
Lemma delete_query_of_falsy (oid : ObjectId) (owner : option string) :
  truthy owner = false -> delete_query_of oid owner = by_id oid.
Proof. intros H. unfold delete_query_of. now rewrite H. Qed.

Lemma delete_query_of_owner (oid : ObjectId) (owner : string) :
  owner <> "" ->
  delete_query_of oid (Some owner) = {| q_id := Some oid; q_user_id := Some owner |}.
Proof.
  intros H. unfold delete_query_of, truthy.
  destruct (String.eqb_spec owner ""); [contradiction|reflexivity].
Qed.

Lemma matches_id_and_owner (oid : ObjectId) (owner : string) (d : Document) :
  collection.matches {| q_id := Some oid; q_user_id := Some owner |} d = true
  <-> doc_id d = oid /\ doc_user_id d = owner.
Proof.
  unfold collection.matches; cbn [q_id q_user_id].
  rewrite andb_true_iff, eqb_eq, String.eqb_eq. reflexivity.
Qed.

(** With an empty [owner_id] the record of another user is deleted:
    the first sentence of the deletion contract fails on the handler. *)
Lemma delete_with_empty_owner_counterexample :
  (forall d, In d (stored Samples.one_chat_world) -> doc_user_id d = "u1") /\
  stored (snd (delete_chat Samples.id_ff (Some "") Samples.one_chat_world)) = [] /\
  ~ mismatched_owner_keeps_record.
Proof.
  split; [|split].
  - intros d [<-|[]]. reflexivity.
  - reflexivity.
  - intros H.
    specialize (H Samples.one_chat_world Samples.id_ff
                  (ObjectIdCodec.generate 255) "" eq_refl).
    assert (Hne : forall d, In d (stored Samples.one_chat_world) ->
                            doc_id d = ObjectIdCodec.generate 255 ->
                            doc_user_id d <> "").
    { intros d [<-|[]] _. discriminate. }
    specialize (H Hne). vm_compute in H. discriminate.
Qed.

(** C6 (amended): for a well-formed identifier, [delete_chat] with a
    non-empty [owner_id] that differs from the owner of every record
    carrying the identifier fails and leaves the collection as it was;
    [delete_chat] with no [owner_id] succeeds with [deleted_count = 1]
    and removes the first record carrying the identifier, whoever owns
    it, when there is one; and whatever the call, the collection
    afterwards is the one before with at most one record taken out. *)
Theorem delete_chat_owner_contract (id : string) (w : World) :
  (forall oid owner,
      ObjectIdCodec.parse id = Some oid ->
      owner <> "" ->
      (forall d, In d (stored w) -> doc_id d = oid -> doc_user_id d <> owner) ->
      stored (snd (delete_chat id (Some owner) w)) = stored w /\
      exists e, fst (delete_chat id (Some owner) w) = inl e) /\
  (forall oid d,
      ObjectIdCodec.parse id = Some oid ->
      In d (stored w) -> doc_id d = oid ->
      exists l1 x l2,
        stored w = (l1 ++ x :: l2)%list /\
        doc_id x = oid /\
        (forall y, In y l1 -> doc_id y <> oid) /\
        stored (snd (delete_chat id None w)) = (l1 ++ l2)%list /\
        fst (delete_chat id None w)
          = inr {| dr_message := "Chat deleted successfully!";
                   dr_deleted_count := 1 |}) /\
  (forall owner,
      stored (snd (delete_chat id owner w)) = stored w \/
      exists l1 x l2,
        stored w = (l1 ++ x :: l2)%list /\
        stored (snd (delete_chat id owner w)) = (l1 ++ l2)%list).
Proof.
  split; [|split].
  - intros oid owner Hparse Hne Hmis.
    rewrite (delete_chat_valid id oid (Some owner) w Hparse). cbv zeta.
    rewrite (delete_query_of_owner oid owner Hne).
    pose proof (remove_first_spec
                  (collection.matches {| q_id := Some oid; q_user_id := Some owner |})
                  (stored w)) as H.
    destruct (List.find _ _) as [d|] eqn:Hfind.
    + exfalso. apply find_some in Hfind as [Hin Hm].
      apply matches_id_and_owner in Hm as [Hid Hu].
      exact (Hmis d Hin Hid Hu).
    + rewrite H. cbn. split; [reflexivity|eauto].
  - intros oid d Hparse Hin Hid.
    rewrite (delete_chat_valid id oid None w Hparse). cbv zeta.
    rewrite (delete_query_of_falsy oid None eq_refl).
    pose proof (remove_first_spec (collection.matches (by_id oid)) (stored w)) as H.
    destruct (List.find _ _) as [x|] eqn:Hfind.
    + destruct H as (l1 & l2 & Hw & Hl1 & Hx & Hr).
      exists l1, x, l2. rewrite Hr. cbn.
      rewrite matches_by_id in Hx. apply eqb_eq in Hx.
      repeat split; auto.
      intros y Hy. apply eqb_neq. rewrite <- matches_by_id. now apply Hl1.
    + exfalso. apply (proj1 (find_none_iff _ _)) with (d := d) in Hfind; auto.
      rewrite matches_by_id in Hfind. apply eqb_neq in Hfind. contradiction.
  - intros owner. apply delete_chat_at_most_one.
Qed.

Lemma delete_chat_owner_contract_witness :
  (stored (snd (delete_chat Samples.id_ff (Some "u2") Samples.one_chat_world))
   = stored Samples.one_chat_world /\
   exists e, fst (delete_chat Samples.id_ff (Some "u2") Samples.one_chat_world)
             = inl e) /\
  (exists l1 x l2,
      stored Samples.one_chat_world = (l1 ++ x :: l2)%list /\
      doc_id x = ObjectIdCodec.generate 255 /\
      (forall y, In y l1 -> doc_id y <> ObjectIdCodec.generate 255) /\
      stored (snd (delete_chat Samples.id_ff None Samples.one_chat_world))
        = (l1 ++ l2)%list /\
      fst (delete_chat Samples.id_ff None Samples.one_chat_world)
        = inr {| dr_message := "Chat deleted successfully!";
                 dr_deleted_count := 1 |}).
Proof.
  destruct (delete_chat_owner_contract Samples.id_ff Samples.one_chat_world)
    as (Hmis & Hdel & _).
  split.
  - apply (Hmis (ObjectIdCodec.generate 255) "u2" eq_refl).
    + discriminate.
    + intros d [<-|[]] _. discriminate.
  - apply (Hdel (ObjectIdCodec.generate 255)
             (mkDocument (ObjectIdCodec.generate 255) "u1"
                [mkMessage "a" "hi" 5; mkMessage "b" "yo" 6] 1000) eq_refl).
    + left. reflexivity.
    + reflexivity.
Defined.

(** C7 (as the code behaves): when the delete operation reports
    [deleted_count = 0], the [try] block raises the 404 exception whose
    text is "Chat not found", followed by " or not associated with the
    specified user" when a non-empty [owner_id] was given; the handler
    catches it and answers with status 500, the text behind the prefix
    "Error deleting chat: ". *)
Theorem zero_deleted_answered_with_500 (id : string) (oid : ObjectId)
  (owner : option string) (w : World) :
  ObjectIdCodec.parse id = Some oid ->
  fst (collection.delete_one (delete_query_of oid owner) w) = inr 0 ->
  let not_found :=
    HTTPException 404
      ("Chat not found" ++
       (if truthy owner then " or not associated with the specified user" else ""))
  in
  fst (delete_chat_body id owner w) = inl not_found /\
  fst (delete_chat id owner w)
    = inl (HTTPException 500 ("Error deleting chat: " ++ str_exn not_found)).
Proof.
  intros Hparse Hzero not_found. subst not_found.
  rewrite (delete_chat_valid id oid owner w Hparse),
          (delete_chat_body_valid w id oid Hparse). cbv zeta.
  unfold collection.delete_one in Hzero.
  destruct (collection.remove_first _ _) as [rest n]. cbn [fst snd] in *.
  injection Hzero as ->. split; reflexivity.
Qed.

Lemma zero_deleted_answered_with_500_witness :
  status_of_result (delete_chat Samples.id_absent None Samples.one_chat_world)
    = Some 500 /\
  status_of_result (delete_chat Samples.id_ff (Some "u2") Samples.one_chat_world)
    = Some 500.
Proof.
  unfold status_of_result. split.
  - destruct (zero_deleted_answered_with_500 Samples.id_absent
                (ObjectIdCodec.generate 170) None Samples.one_chat_world
                eq_refl eq_refl) as [_ H].
    rewrite H. reflexivity.
  - destruct (zero_deleted_answered_with_500 Samples.id_ff
                (ObjectIdCodec.generate 255) (Some "u2") Samples.one_chat_world
                eq_refl eq_refl) as [_ H].
    rewrite H. reflexivity.
Defined.

(** C10: with [user_id] equal to the empty string [delete_chat] runs
    exactly as with no [user_id]: same outcome, same world, the same
    filter on the identifier alone sent to the store; so a record
    carrying the identifier is deleted whoever owns it. *)
Theorem empty_owner_skips_owner_check (id : string) (w : World) :
  delete_chat id (Some "") w = delete_chat id None w /\
  (forall oid, delete_query_of oid (Some "") = by_id oid) /\
  (forall oid d,
      ObjectIdCodec.parse id = Some oid ->
      In d (stored w) -> doc_id d = oid ->
      fst (delete_chat id (Some "") w)
        = inr {| dr_message := "Chat deleted successfully!";
                 dr_deleted_count := 1 |} /\
      exists l1 x l2,
        stored w = (l1 ++ x :: l2)%list /\
        doc_id x = oid /\
        (forall y, In y l1 -> doc_id y <> oid) /\
        stored (snd (delete_chat id (Some "") w)) = (l1 ++ l2)%list).
Proof.
  assert (Heq : delete_chat id (Some "") w = delete_chat id None w) by reflexivity.
  split; [exact Heq|]. split; [reflexivity|].
  intros oid d Hparse Hin Hid. rewrite Heq.
  rewrite (delete_chat_valid id oid None w Hparse). cbv zeta.
  rewrite (delete_query_of_falsy oid None eq_refl).
  pose proof (remove_first_spec (collection.matches (by_id oid)) (stored w)) as H.
  destruct (List.find _ _) as [x|] eqn:Hfind.
  - destruct H as (l1 & l2 & Hw & Hl1 & Hx & Hr).
    rewrite Hr. cbn. split; [reflexivity|].
    exists l1, x, l2.
    rewrite matches_by_id in Hx. apply eqb_eq in Hx.
    repeat split; auto.
    intros y Hy. apply eqb_neq. rewrite <- matches_by_id. now apply Hl1.
  - exfalso. apply (proj1 (find_none_iff _ _)) with (d := d) in Hfind; auto.
    rewrite matches_by_id in Hfind. apply eqb_neq in Hfind. contradiction.
Qed.

Lemma empty_owner_skips_owner_check_witness :
  fst (delete_chat Samples.id_ff (Some "") Samples.one_chat_world)
    = inr {| dr_message := "Chat deleted successfully!"; dr_deleted_count := 1 |} /\
  exists l1 x l2,
    stored Samples.one_chat_world = (l1 ++ x :: l2)%list /\
    doc_id x = ObjectIdCodec.generate 255 /\
    (forall y, In y l1 -> doc_id y <> ObjectIdCodec.generate 255) /\
    stored (snd (delete_chat Samples.id_ff (Some "") Samples.one_chat_world))
      = (l1 ++ l2)%list.
Proof.
  destruct (empty_owner_skips_owner_check Samples.id_ff Samples.one_chat_world)
    as (_ & _ & H).
  apply (H (ObjectIdCodec.generate 255)
           (mkDocument (ObjectIdCodec.generate 255) "u1"
              [mkMessage "a" "hi" 5; mkMessage "b" "yo" 6] 1000) eq_refl).
  - left. reflexivity.
  - reflexivity.
Defined.

End Ownership.


(* ------------------------------------------------------------------ *)
(** ** Pagination *)

Module SortFacts.
Import collection.

Lemma insert_sorted_perm (before : Document -> Document -> bool)
  (d : Document) (l : list Document) :
  Permutation (insert_sorted before d l) (d :: l).
Proof.
  induction l as [|x r IH]; cbn [insert_sorted]; [apply Permutation_refl|].
  destruct (before d x); [apply Permutation_refl|].
  eapply perm_trans; [apply perm_skip, IH | apply perm_swap].
Qed.

Lemma sort_docs_perm (before : Document -> Document -> bool) (l : list Document) :
  Permutation (sort_docs before l) l.
Proof.
  induction l as [|x r IH]; [apply perm_nil|].
  cbn [sort_docs fold_right]. fold (sort_docs before r).
  eapply perm_trans; [apply insert_sorted_perm | now apply perm_skip].
Qed.



(** The cursor [get_user_chats] builds yields the window of the user's
    chats, newest first. *)
Lemma run_cursor_window (user : string) (skipped limit : Z) (docs : list Document) :
  1 <= limit ->
  run_cursor {| c_filter := {| q_id := None; q_user_id := Some user |};
                c_skip := skipped; c_limit := limit;
                c_sort := Some ("created_at", -1) |} docs
  = firstn (Z.to_nat limit)
      (skipn (Z.to_nat skipped)
         (sort_docs created_desc (chats_of_user user docs))).
Proof.
  intros Hl. unfold run_cursor, apply_sort.
  cbn [c_filter c_skip c_limit c_sort].
  replace (limit =? 0) with false by (symmetry; apply Z.eqb_neq; lia).
  rewrite Z.abs_eq by lia. reflexivity.
Qed.

End SortFacts.

Section Pagination.
Import StoreFacts SortFacts.

Variable user : string.
Variables page limit : Z.
Variable w : World.

(** The count and the page count the handler computes. *)
Local Abbreviation total_chats :=
  (Z.of_nat (List.length (chats_of_user user (stored w)))).
Local Abbreviation total_pages := (- ((- total_chats) / limit)).

Hypothesis Hpage : 1 <= page.
Hypothesis Hlimit : 1 <= limit <= 100.

Lemma total_pages_ceiling :
  (total_pages - 1) * limit < total_chats <= total_pages * limit.
Proof.
  pose proof (Z.div_mod (- total_chats) limit ltac:(lia)) as Hdm.
  pose proof (Z.mod_pos_bound (- total_chats) limit ltac:(lia)) as Hb.
  nia.
Qed.

Lemma total_pages_nonneg : 0 <= total_pages.
Proof.
  pose proof total_pages_ceiling as H.
  assert (0 <= total_chats) by lia. nia.
Qed.

(** The [try] block of [get_user_chats], step by step. *)
Lemma get_user_chats_body_runs :
  let q := {| q_id := None; q_user_id := Some user |} in
  let w1 := log w (StoreAccess (CountDocuments q)) in
  let cursor := {| c_filter := q; c_skip := (page - 1) * limit;
                   c_limit := limit; c_sort := Some ("created_at", -1) |} in
  get_user_chats_body user page limit w =
  if (page >? total_pages) && (total_pages >? 0) then
    (inl (HTTPException 404
            ("Page " ++ str_of_Z page ++ " does not exist. Total pages: "
             ++ str_of_Z total_pages)), w1)
  else
    (inr {| uc_user_id := user;
            uc_chats :=
              map stringify_id
                (firstn (Z.to_nat limit)
                   (skipn (Z.to_nat ((page - 1) * limit))
                      (collection.sort_docs collection.created_desc
                         (chats_of_user user (stored w)))));
            uc_page := page;
            uc_limit := limit;
            uc_total_chats := total_chats;
            uc_total_pages := total_pages |},
     log w1 (StoreAccess (Find cursor))).
Proof.
  cbv zeta. unfold get_user_chats_body, bind, collection.count_documents,
    math_ceil_div.
  rewrite filter_by_user.
  replace (limit =? 0) with false by (symmetry; apply Z.eqb_neq; lia).
  unfold ret at 1.
  destruct ((page >? total_pages) && (total_pages >? 0)); [reflexivity|].
  unfold collection.skip.
  replace ((page - 1) * limit <? 0) with false
    by (symmetry; apply Z.ltb_ge; nia).
  unfold ret, collection.to_list, collection.find, collection.limit,
    collection.sort.
  cbn [c_filter c_skip c_limit c_sort stored log].
  rewrite run_cursor_window by lia.
  rewrite firstn_firstn, Nat.min_id. reflexivity.
Qed.

End Pagination.

Section PaginationContract.
Import StoreFacts SortFacts.

(** C3 (as the code behaves): with [page >= 1] and [limit] in [1,100],
    [get_user_chats] fails exactly when [page > total_pages] and
    [total_pages > 0]; the [try] block then raises the 404 exception,
    which [except Exception] catches, and the response carries status
    500. When the user has no chat every page succeeds, with an empty
    list and [total_pages = 0]. *)
Theorem page_out_of_range_answered_with_500 (user : string) (page limit : Z)
  (w : World) :
  1 <= page -> 1 <= limit <= 100 ->
  let total_chats := Z.of_nat (List.length (chats_of_user user (stored w))) in
  let total_pages := - ((- total_chats) / limit) in
  let out_of_range :=
    HTTPException 404
      ("Page " ++ str_of_Z page ++ " does not exist. Total pages: "
       ++ str_of_Z total_pages) in
  (page > total_pages /\ total_pages > 0 ->
   fst (get_user_chats_body user page limit w) = inl out_of_range /\
   fst (get_user_chats user page limit w)
     = inl (HTTPException 500 ("Error retrieving chats: " ++ str_exn out_of_range))) /\
  (~ (page > total_pages /\ total_pages > 0) ->
   exists r, fst (get_user_chats user page limit w) = inr r) /\
  (total_chats = 0 ->
   exists r, fst (get_user_chats user page limit w) = inr r /\
             uc_chats r = [] /\ uc_total_pages r = 0).
Proof.
  intros Hpage Hlimit total_chats total_pages out_of_range.
  pose proof (get_user_chats_body_runs user page limit w Hpage Hlimit) as Hrun.
  cbv zeta in Hrun. fold total_chats total_pages in Hrun.
  unfold get_user_chats, try_except. rewrite Hrun. clear Hrun.
  split; [|split].
  - intros [Hgt Hpos].
    replace (page >? total_pages) with true by (symmetry; apply Z.gtb_lt; lia).
    replace (total_pages >? 0) with true by (symmetry; apply Z.gtb_lt; lia).
    split; reflexivity.
  - intros Hin.
    destruct ((page >? total_pages) && (total_pages >? 0)) eqn:Hc.
    + exfalso. apply Hin. apply andb_true_iff in Hc as [H1 H2].
      apply Z.gtb_lt in H1, H2. lia.
    + eexists. reflexivity.
  - intros Hzero.
    assert (Htp : total_pages = 0) by (subst total_pages; now rewrite Hzero).
    rewrite Htp. replace (0 >? 0) with false by reflexivity.
    rewrite andb_false_r. eexists. cbn [fst uc_chats uc_total_pages].
    split; [reflexivity|]. split; [|reflexivity].
    assert (Hnil : chats_of_user user (stored w) = []).
    { apply length_zero_iff_nil. subst total_chats. lia. }
    rewrite Hnil. cbn. now rewrite skipn_nil, firstn_nil.
Qed.

Lemma page_out_of_range_answered_with_500_witness :
  status_of_result (get_user_chats_body "u2" 3 10 Samples.fifteen_world)
    = Some 404 /\
  status_of_result (get_user_chats "u2" 3 10 Samples.fifteen_world) = Some 500 /\
  (exists r, fst (get_user_chats "u2" 2 10 Samples.fifteen_world) = inr r) /\
  (exists r, fst (get_user_chats "nobody" 7 10 Samples.fifteen_world) = inr r /\
             uc_chats r = [] /\ uc_total_pages r = 0).
Proof.
  destruct (page_out_of_range_answered_with_500 "u2" 3 10 Samples.fifteen_world
              ltac:(lia) ltac:(lia)) as (Hout & _ & _).
  destruct (page_out_of_range_answered_with_500 "u2" 2 10 Samples.fifteen_world
              ltac:(lia) ltac:(lia)) as (_ & Hin & _).
  destruct (page_out_of_range_answered_with_500 "nobody" 7 10 Samples.fifteen_world
              ltac:(lia) ltac:(lia)) as (_ & _ & Hempty).
  destruct Hout as [Hb Hh]; [split; reflexivity|].
  unfold status_of_result. rewrite Hb, Hh.
  repeat split.
  - apply Hin. vm_compute. intros [H _]. discriminate.
  - apply Hempty. reflexivity.
Defined.

(** C4: in every successful response of [get_user_chats] (with
    [page >= 1] and [limit] in [1,100]), [total_chats] is the number of
    stored chats of the requested user and [total_pages] is the ceiling
    of [total_chats / limit], the least number of pages of [limit] chats
    that hold them all; it is 0 when the user has no chat. *)
Theorem total_pages_is_ceiling (user : string) (page limit : Z) (w : World)
  (r : UserChatsResponse) :
  1 <= page -> 1 <= limit <= 100 ->
  fst (get_user_chats user page limit w) = inr r ->
  uc_total_chats r = Z.of_nat (List.length (chats_of_user user (stored w))) /\
  (uc_total_pages r - 1) * limit < uc_total_chats r <= uc_total_pages r * limit /\
  (uc_total_chats r = 0 -> uc_total_pages r = 0).
Proof.
  intros Hpage Hlimit.
  pose proof (get_user_chats_body_runs user page limit w Hpage Hlimit) as Hrun.
  pose proof (total_pages_ceiling user limit w Hlimit) as Hceil.
  cbv zeta in Hrun, Hceil.
  unfold get_user_chats, try_except. rewrite Hrun. clear Hrun.
  destruct (_ && _); [discriminate|].
  cbn [fst]. intros H. injection H as <-.
  cbn [uc_total_chats uc_total_pages].
  split; [reflexivity|]. split; [exact Hceil|]. intros ->. reflexivity.
Qed.

Lemma total_pages_is_ceiling_witness :
  exists r,
    fst (get_user_chats "u2" 2 10 Samples.fifteen_world) = inr r /\
    uc_total_chats r = 15 /\ uc_total_pages r = 2 /\
    (uc_total_pages r - 1) * 10 < uc_total_chats r <= uc_total_pages r * 10.
Proof.
  eexists. split; [vm_compute; reflexivity|].
  split; [reflexivity|]. split; [reflexivity|].
  apply (total_pages_is_ceiling "u2" 2 10 Samples.fifteen_world);
    [lia | lia | vm_compute; reflexivity].
Defined.



End PaginationContract.


(* ------------------------------------------------------------------ *)
(** ** The summarization prompt *)

Section Prompt.
Import ObjectIdFacts StoreFacts.

Lemma api_requests_app (t1 t2 : list Event) :
  api_requests (t1 ++ t2) = (api_requests t1 ++ api_requests t2)%list.
Proof. apply flat_map_app. Qed.

(** Whatever the endpoint answers, [summarize_chat] on a chat it finds
    leaves behind the trace of one lookup and one request. *)
Lemma summarize_chat_trace (id : string) (oid : ObjectId) (w : World)
  (c : Document) :
  ObjectIdCodec.parse id = Some oid ->
  List.find (collection.matches (by_id oid)) (stored w) = Some c ->
  trace (snd (summarize_chat id w))
  = (trace w ++ [StoreAccess (FindOne (by_id oid))]
       ++ [ApiPost (summary_payload (chat_text_of (doc_messages c)))])%list.
Proof.
  intros Hparse Hfind. unfold summarize_chat, try_except.
  rewrite (summarize_chat_body_valid w id oid Hparse). cbv zeta.
  rewrite Hfind. rewrite app_assoc.
  destruct (mistral w _) as [m|s body]; [reflexivity|].
  destruct (negb (s =? 200)); [reflexivity|].
  destruct body as [summary|]; [|reflexivity].
  now destruct (py_len summary).
Qed.

(** C8: when [summarize_chat] finds the chat, it sends the endpoint one
    request, whose user message is the fixed heading, two newline
    characters, and the [text] fields of the chat's messages, in stored
    order, with one newline character (code 10) between each text and
    the next. The request is a function of that list of texts alone: a
    chat with the same texts under other senders and timestamps gives
    the same request. *)
Theorem prompt_is_joined_message_texts (id : string) (oid : ObjectId) (w : World)
  (c : Document) :
  ObjectIdCodec.parse id = Some oid ->
  List.find (collection.matches (by_id oid)) (stored w) = Some c ->
  let newline := String "010"%char EmptyString in
  let prompt :=
    "Summarize this conversation:" ++ newline ++ newline
    ++ String.concat newline (map text (doc_messages c)) in
  exists p,
    api_requests (trace (snd (summarize_chat id w)))
      = (api_requests (trace w) ++ [p])%list /\
    api_messages p
      = [ {| role := "system"; content := "Summarize conversations concisely." |};
          {| role := "user"; content := prompt |} ] /\
    (forall id' oid' w' c',
        ObjectIdCodec.parse id' = Some oid' ->
        List.find (collection.matches (by_id oid')) (stored w') = Some c' ->
        map text (doc_messages c') = map text (doc_messages c) ->
        api_requests (trace (snd (summarize_chat id' w')))
          = (api_requests (trace w') ++ [p])%list).
Proof.
  intros Hparse Hfind newline prompt.
  exists (summary_payload (chat_text_of (doc_messages c))).
  split; [|split].
  - rewrite (summarize_chat_trace id oid w c Hparse Hfind).
    rewrite !api_requests_app. reflexivity.
  - reflexivity.
  - intros id' oid' w' c' Hparse' Hfind' Htexts.
    rewrite (summarize_chat_trace id' oid' w' c' Hparse' Hfind').
    rewrite !api_requests_app. unfold chat_text_of. rewrite Htexts.
    reflexivity.
Qed.

Lemma prompt_is_joined_message_texts_witness :
  exists p,
    api_requests (trace (snd (summarize_chat Samples.id_ff Samples.one_chat_world)))
      = (api_requests (trace Samples.one_chat_world) ++ [p])%list /\
    map content (api_messages p)
      = [ "Summarize conversations concisely.";
          "Summarize this conversation:"
          ++ String "010"%char
               (String "010"%char ("hi" ++ String "010"%char "yo")) ].
Proof.
  destruct (prompt_is_joined_message_texts Samples.id_ff
              (ObjectIdCodec.generate 255) Samples.one_chat_world
              (mkDocument (ObjectIdCodec.generate 255) "u1"
                 [mkMessage "a" "hi" 5; mkMessage "b" "yo" 6] 1000)
              eq_refl eq_refl) as (p & Hreq & Hmsgs & _).
  exists p. split; [exact Hreq|]. rewrite Hmsgs. reflexivity.
Defined.

End Prompt.


(* ================================================================== *)
(** * Further properties of the handlers *)

(* ------------------------------------------------------------------ *)
(** ** Outcomes and effects on the collection *)

Section Outcomes.
Import ObjectIdFacts StoreFacts.

Lemma get_chat_keeps_collection (id : string) (w : World) :
  stored (snd (get_chat id w)) = stored w.
Proof.
  unfold get_chat, try_except.
  destruct (ObjectIdCodec.parse id) as [oid|] eqn:Hparse.
  - rewrite (get_chat_body_valid w id oid Hparse).
    now destruct (List.find _ _).
  - rewrite get_chat_body_invalid; [reflexivity|].
    unfold ObjectIdCodec.is_valid. now rewrite Hparse.
Qed.

Lemma summarize_chat_keeps_collection (id : string) (w : World) :
  stored (snd (summarize_chat id w)) = stored w.
Proof.
  unfold summarize_chat, try_except.
  destruct (ObjectIdCodec.parse id) as [oid|] eqn:Hparse.
  - rewrite (summarize_chat_body_valid w id oid Hparse). cbv zeta.
    destruct (List.find _ _) as [c|]; [|reflexivity].
    destruct (mistral w _) as [m|s body]; [reflexivity|].
    destruct (negb (s =? 200)); [reflexivity|].
    destruct body as [summary|]; [|reflexivity].
    now destruct (py_len summary).
  - rewrite summarize_chat_body_invalid; [reflexivity|].
    unfold ObjectIdCodec.is_valid. now rewrite Hparse.
Qed.

Lemma get_user_chats_keeps_collection (user : string) (page limit : Z)
  (w : World) :
  stored (snd (get_user_chats user page limit w)) = stored w.
Proof.
  unfold get_user_chats, try_except, get_user_chats_body, bind,
    collection.count_documents, math_ceil_div.
  destruct (limit =? 0); [reflexivity|]. unfold ret at 1.
  destruct (_ && _); [reflexivity|].
  unfold collection.skip. destruct (_ <? 0); reflexivity.
Qed.

(** The three reading handlers never change the collection: after
    [get_chat], [summarize_chat] or [get_user_chats] the stored chats are
    what they were, whether the call succeeds or fails and whatever the
    summarization endpoint answers. *)
Theorem reading_handlers_keep_collection (id user : string) (page limit : Z)
  (w : World) :
  stored (snd (get_chat id w)) = stored w /\
  stored (snd (summarize_chat id w)) = stored w /\
  stored (snd (get_user_chats user page limit w)) = stored w.
Proof.
  split; [|split].
  - apply get_chat_keeps_collection.
  - apply summarize_chat_keeps_collection.
  - apply get_user_chats_keeps_collection.
Qed.

End Outcomes.


(* ------------------------------------------------------------------ *)
(** ** Outcomes of summarization *)

Section Summaries.
Import ObjectIdFacts StoreFacts.

(** The outcome of [summarize_chat] on a chat it finds, by the answer of
    the endpoint. *)
Lemma summarize_chat_found (id : string) (oid : ObjectId) (w : World)
  (c : Document) :
  ObjectIdCodec.parse id = Some oid ->
  List.find (collection.matches (by_id oid)) (stored w) = Some c ->
  fst (summarize_chat id w) =
  match mistral w (summary_payload (chat_text_of (doc_messages c))) with
  | TransportError m => inl (HTTPException 500 ("Summarization error: " ++ m))
  | Response s body =>
      if negb (s =? 200) then
        inl (HTTPException 500
               ("Summarization error: " ++
                str_exn (HTTPException 500
                           ("Summarization failed: " ++ str_of_Z s))))
      else
        match body with
        | None => inl (HTTPException 500 ("Summarization error: " ++ "'choices'"))
        | Some summary =>
            match py_len summary with
            | inl e => inl (HTTPException 500 ("Summarization error: " ++ str_exn e))
            | inr n =>
                inr {| sm_conversation_id := id;
                       sm_summary := summary;
                       sm_summary_length := n |}
            end
        end
  end.
Proof.
  intros Hparse Hfind. unfold summarize_chat, try_except.
  rewrite (summarize_chat_body_valid w id oid Hparse). cbv zeta.
  rewrite Hfind.
  destruct (mistral w _) as [m|s body]; [reflexivity|].
  destruct (negb (s =? 200)); [reflexivity|].
  destruct body as [summary|]; [|reflexivity].
  now destruct (py_len summary).
Qed.

(** When the endpoint does not give a usable answer for a chat that was
    found, [summarize_chat] fails with status 500 and returns no
    summary: a status other than 200 is reported as "Summarization
    failed: <status>" behind the prefix "Summarization error: ", an
    exception of the transport by its message behind that prefix, and a
    200 answer without the expected text is a 500 as well. *)
Theorem summarize_upstream_failure_is_500 (id : string) (oid : ObjectId)
  (w : World) (c : Document) :
  ObjectIdCodec.parse id = Some oid ->
  List.find (collection.matches (by_id oid)) (stored w) = Some c ->
  let reply := mistral w (summary_payload (chat_text_of (doc_messages c))) in
  (forall s body,
      reply = Response s body -> s <> 200 ->
      fst (summarize_chat id w)
      = inl (HTTPException 500
               ("Summarization error: " ++
                str_exn (HTTPException 500
                           ("Summarization failed: " ++ str_of_Z s))))) /\
  (forall m,
      reply = TransportError m ->
      fst (summarize_chat id w)
      = inl (HTTPException 500 ("Summarization error: " ++ m))) /\
  (reply = Response 200 None ->
   exists detail, fst (summarize_chat id w) = inl (HTTPException 500 detail)).
Proof.
  intros Hparse Hfind reply. subst reply.
  rewrite (summarize_chat_found id oid w c Hparse Hfind).
  split; [|split].
  - intros s body -> Hs.
    replace (s =? 200) with false by (symmetry; now apply Z.eqb_neq).
    reflexivity.
  - intros m ->. reflexivity.
  - intros ->. eexists. reflexivity.
Qed.

Lemma summarize_upstream_failure_is_500_witness :
  fst (summarize_chat Samples.id_ff Samples.failing_summarizer_world)
  = inl (HTTPException 500
           ("Summarization error: " ++
            str_exn (HTTPException 500 ("Summarization failed: " ++ "503")))).
Proof.
  destruct (summarize_upstream_failure_is_500 Samples.id_ff
              (ObjectIdCodec.generate 255) Samples.failing_summarizer_world
              (mkDocument (ObjectIdCodec.generate 255) "u1"
                 [mkMessage "a" "hi" 5; mkMessage "b" "yo" 6] 1000)
              eq_refl eq_refl) as (H & _ & _).
  apply (H 503 None eq_refl). discriminate.
Defined.



(** [summarize_chat] sends nothing to the endpoint unless it has found
    the chat: with a malformed identifier, or a well-formed one that no
    stored chat carries, the requests made so far are all there is. *)
Theorem summarize_without_chat_sends_nothing (id : string) (w : World) :
  (forall oid, ObjectIdCodec.parse id = Some oid ->
               List.find (collection.matches (by_id oid)) (stored w) = None) ->
  api_requests (trace (snd (summarize_chat id w))) = api_requests (trace w).
Proof.
  intros Habs. unfold summarize_chat, try_except.
  destruct (ObjectIdCodec.parse id) as [oid|] eqn:Hparse.
  - rewrite (summarize_chat_body_valid w id oid Hparse). cbv zeta.
    rewrite (Habs oid eq_refl). cbn [snd raise trace log].
    rewrite api_requests_app. cbn. apply app_nil_r.
  - rewrite summarize_chat_body_invalid; [reflexivity|].
    unfold ObjectIdCodec.is_valid. now rewrite Hparse.
Qed.

Lemma summarize_without_chat_sends_nothing_witness :
  api_requests (trace (snd (summarize_chat Samples.id_absent Samples.one_chat_world)))
    = [] /\
  api_requests (trace (snd (summarize_chat "not-an-id" Samples.one_chat_world)))
    = [].
Proof.
  split.
  - apply (summarize_without_chat_sends_nothing Samples.id_absent
             Samples.one_chat_world).
    intros oid H. injection H as <-. reflexivity.
  - apply (summarize_without_chat_sends_nothing "not-an-id"
             Samples.one_chat_world).
    intros oid H. discriminate.
Defined.

End Summaries.


(* ------------------------------------------------------------------ *)
(** ** Storing *)

Section Storing.
Import ObjectIdFacts StoreFacts.

Lemma not_in_ids (oid : ObjectId) (docs : list Document) :
  existsb (fun x => ObjectIdCodec.eqb (doc_id x) oid) docs = false ->
  ~ In oid (map doc_id docs).
Proof.
  intros Hex Hin. apply in_map_iff in Hin as (x & Hx & Hin).
  assert (existsb (fun x => ObjectIdCodec.eqb (doc_id x) oid) docs = true).
  { apply existsb_exists. exists x. split; [assumption|]. now apply eqb_eq. }
  congruence.
Qed.

(** What a successful [store_chat] leaves behind. *)
Lemma store_chat_success (chat : Chat) (w w1 : World) (r : StoreChatResponse) :
  store_chat chat w = (inr r, w1) ->
  let oid := ObjectIdCodec.generate (oid_seed w) in
  let d := mkDocument oid (user_id chat) (messages chat) (clock w) in
  stored w1 = (stored w ++ [d])%list /\
  sc_chat_id r = ObjectIdCodec.to_str oid /\
  ~ In oid (map doc_id (stored w)).
Proof.
  rewrite store_chat_runs. cbv zeta.
  destruct (existsb _ (stored w)) eqn:Hfresh; [discriminate|].
  intros H. injection H as <- <-.
  repeat split. now apply not_in_ids.
Qed.

(** A successful [store_chat] adds exactly one record, after those
    already stored, which stay as they are: it holds the [user_id] and
    the messages of the request and the time read from the clock, under
    an identifier that no stored chat had. The [chat_id] returned is the
    string form of that identifier and is well formed, so that the other
    handlers accept it. *)
Theorem store_chat_appends_one_chat (chat : Chat) (w w1 : World)
  (r : StoreChatResponse) :
  store_chat chat w = (inr r, w1) ->
  exists d,
    stored w1 = (stored w ++ [d])%list /\
    doc_user_id d = user_id chat /\
    doc_messages d = messages chat /\
    doc_created_at d = clock w /\
    (forall x, In x (stored w) -> doc_id x <> doc_id d) /\
    sc_chat_id r = ObjectIdCodec.to_str (doc_id d) /\
    ObjectIdCodec.parse (sc_chat_id r) = Some (doc_id d) /\
    ObjectIdCodec.is_valid (sc_chat_id r) = true.
Proof.
  intros Hstore. apply store_chat_success in Hstore as (Hst & Hid & Hfresh).
  eexists. split; [exact Hst|]. cbn [doc_user_id doc_messages doc_created_at doc_id].
  assert (Hparse : ObjectIdCodec.parse (sc_chat_id r)
                   = Some (ObjectIdCodec.generate (oid_seed w))).
  { rewrite Hid. apply parse_to_str, length_generate. }
  repeat split; auto.
  - intros x Hx Heq. apply Hfresh. rewrite <- Heq. now apply in_map.
  - now apply parse_is_valid in Hparse.
Qed.

Lemma store_chat_appends_one_chat_witness :
  exists d,
    stored Samples.one_chat_world = (stored Samples.empty_world ++ [d])%list /\
    doc_user_id d = "u1" /\
    ObjectIdCodec.is_valid Samples.id_ff = true.
Proof.
  destruct (store_chat_appends_one_chat Samples.hi_chat Samples.empty_world
              Samples.one_chat_world
              {| sc_message := "Chat stored successfully!";
                 sc_chat_id := Samples.id_ff |} eq_refl)
    as (d & Hst & Hu & _ & _ & _ & _ & _ & Hv).
  exists d. repeat split; assumption.
Defined.

Lemma store_chat_keeps_unique (chat : Chat) (w : World) :
  unique_ids (stored w) -> unique_ids (stored (snd (store_chat chat w))).
Proof.
  unfold unique_ids. intros Hu. rewrite store_chat_runs. cbv zeta.
  destruct (existsb _ (stored w)) eqn:Hfresh; [exact Hu|].
  cbn [snd stored with_stored]. rewrite map_app. cbn [map doc_id].
  apply NoDup_app; [assumption | constructor; [intros []|constructor] |].
  intros a Ha [<-|[]]. now apply not_in_ids in Hfresh.
Qed.

Lemma delete_chat_keeps_unique (id : string) (owner : option string) (w : World) :
  unique_ids (stored w) -> unique_ids (stored (snd (delete_chat id owner w))).
Proof.
  unfold unique_ids. intros Hu.
  destruct (delete_chat_at_most_one id owner w) as [->|(l1 & x & l2 & Hw & ->)];
    [assumption|].
  rewrite Hw, map_app in Hu. cbn [map] in Hu.
  rewrite map_app. now apply NoDup_remove_1 in Hu.
Qed.

(** The handlers keep identifiers unique: when no two stored chats carry
    the same identifier, none do after [store_chat] or [delete_chat]
    either, whether the call succeeds or fails. *)
Theorem writing_handlers_keep_ids_unique (chat : Chat) (id : string)
  (owner : option string) (w : World) :
  unique_ids (stored w) ->
  unique_ids (stored (snd (store_chat chat w))) /\
  unique_ids (stored (snd (delete_chat id owner w))).
Proof.
  intros Hu. split.
  - now apply store_chat_keeps_unique.
  - now apply delete_chat_keeps_unique.
Qed.

Lemma writing_handlers_keep_ids_unique_witness :
  unique_ids (stored Samples.one_chat_world) /\
  unique_ids (stored (snd (store_chat Samples.hi_chat Samples.one_chat_world))) /\
  unique_ids (stored (snd (delete_chat Samples.id_ff None Samples.one_chat_world))).
Proof.
  assert (Hu : unique_ids (stored Samples.one_chat_world)).
  { unfold unique_ids. constructor; [intros []|constructor]. }
  split; [exact Hu|].
  exact (writing_handlers_keep_ids_unique Samples.hi_chat Samples.id_ff None
           Samples.one_chat_world Hu).
Defined.

End Storing.


(* ------------------------------------------------------------------ *)
(** ** Deleting *)

Section Deleting.
Import ObjectIdFacts StoreFacts.

Lemma matches_delete_query_id (oid : ObjectId) (owner : option string)
  (x : Document) :
  collection.matches (delete_query_of oid owner) x = true -> doc_id x = oid.
Proof.
  unfold delete_query_of, collection.matches.
  destruct (truthy owner); cbn [q_id q_user_id]; intros H;
    apply andb_true_iff in H as [H _]; now apply eqb_eq.
Qed.

Lemma matches_delete_query_owner (oid : ObjectId) (o : string) (x : Document) :
  o <> "" ->
  collection.matches (delete_query_of oid (Some o)) x = true ->
  doc_user_id x = o.
Proof.
  intros Hne. rewrite (delete_query_of_owner oid o Hne).
  intros H. now apply matches_id_and_owner in H.
Qed.

Lemma matches_delete_query_intro (oid : ObjectId) (owner : option string)
  (d : Document) :
  doc_id d = oid ->
  truthy owner = false \/ owner = Some (doc_user_id d) ->
  collection.matches (delete_query_of oid owner) d = true.
Proof.
  intros Hid Ho. unfold delete_query_of.
  destruct (truthy owner) eqn:Ht.
  - destruct Ho as [Ho| ->]; [discriminate|].
    apply matches_id_and_owner. now split.
  - fold (by_id oid). rewrite matches_by_id. now apply eqb_eq.
Qed.

Lemma remove_first_last (p : Document -> bool) (l : list Document) (d : Document) :
  (forall x, In x l -> p x = false) -> p d = true ->
  collection.remove_first p (l ++ [d]) = (l, 1).
Proof.
  intros Hl Hd. induction l as [|x r IH]; cbn.
  - now rewrite Hd.
  - rewrite (Hl x (or_introl eq_refl)), IH; [reflexivity|].
    intros y Hy. apply Hl. now right.
Qed.

(** Deleting undoes storing: after a successful [store_chat],
    [delete_chat] on the returned identifier, with no owner, with the
    empty owner or with the owner the chat was stored under, succeeds
    with [deleted_count = 1] and leaves the collection exactly as it
    was before the chat was stored. *)
Theorem store_then_delete_restores_collection (chat : Chat) (w w1 : World)
  (r : StoreChatResponse) (owner : option string) :
  store_chat chat w = (inr r, w1) ->
  truthy owner = false \/ owner = Some (user_id chat) ->
  fst (delete_chat (sc_chat_id r) owner w1)
    = inr {| dr_message := "Chat deleted successfully!"; dr_deleted_count := 1 |} /\
  stored (snd (delete_chat (sc_chat_id r) owner w1)) = stored w.
Proof.
  intros Hstore Ho.
  apply store_chat_success in Hstore as (Hst & Hid & Hfresh).
  set (oid := ObjectIdCodec.generate (oid_seed w)) in *.
  assert (Hparse : ObjectIdCodec.parse (sc_chat_id r) = Some oid).
  { rewrite Hid. apply parse_to_str, length_generate. }
  rewrite (delete_chat_valid _ oid owner w1 Hparse). cbv zeta.
  rewrite Hst, remove_first_last.
  - split; reflexivity.
  - intros x Hx. apply not_true_is_false. intros Hm.
    apply matches_delete_query_id in Hm. apply Hfresh.
    rewrite <- Hm. now apply in_map.
  - apply matches_delete_query_intro; [reflexivity|exact Ho].
Qed.

Lemma store_then_delete_restores_collection_witness :
  fst (delete_chat Samples.id_ff (Some "u1") Samples.one_chat_world)
    = inr {| dr_message := "Chat deleted successfully!"; dr_deleted_count := 1 |} /\
  stored (snd (delete_chat Samples.id_ff (Some "u1") Samples.one_chat_world))
    = stored Samples.empty_world.
Proof.
  apply (store_then_delete_restores_collection Samples.hi_chat
           Samples.empty_world Samples.one_chat_world
           {| sc_message := "Chat stored successfully!";
              sc_chat_id := Samples.id_ff |} (Some "u1") eq_refl).
  right. reflexivity.
Defined.

(** With a non-empty [owner_id] equal to the owner of a stored chat that
    carries the identifier, [delete_chat] succeeds with
    [deleted_count = 1] and takes out the first chat with that
    identifier and that owner, and no other. *)
Theorem delete_with_matching_owner_removes_chat (id : string) (oid : ObjectId)
  (o : string) (d : Document) (w : World) :
  ObjectIdCodec.parse id = Some oid ->
  o <> "" ->
  In d (stored w) -> doc_id d = oid -> doc_user_id d = o ->
  fst (delete_chat id (Some o) w)
    = inr {| dr_message := "Chat deleted successfully!"; dr_deleted_count := 1 |} /\
  exists l1 x l2,
    stored w = (l1 ++ x :: l2)%list /\
    doc_id x = oid /\ doc_user_id x = o /\
    stored (snd (delete_chat id (Some o) w)) = (l1 ++ l2)%list.
Proof.
  intros Hparse Hne Hin Hid Hu.
  rewrite (delete_chat_valid id oid (Some o) w Hparse). cbv zeta.
  pose proof (remove_first_spec
                (collection.matches (delete_query_of oid (Some o))) (stored w)) as H.
  destruct (List.find _ _) as [x|] eqn:Hfind.
  - destruct H as (l1 & l2 & Hw & _ & Hx & Hr). rewrite Hr. cbn.
    split; [reflexivity|]. exists l1, x, l2.
    repeat split; auto.
    + now apply matches_delete_query_id in Hx.
    + now apply matches_delete_query_owner in Hx.
  - exfalso. apply (proj1 (find_none_iff _ _)) with (d := d) in Hfind; auto.
    rewrite matches_delete_query_intro in Hfind; [discriminate|assumption|].
    right. now rewrite Hu.
Qed.

Lemma delete_with_matching_owner_removes_chat_witness :
  fst (delete_chat "000000000000000000000003" (Some "u2") Samples.fifteen_world)
    = inr {| dr_message := "Chat deleted successfully!"; dr_deleted_count := 1 |} /\
  exists l1 x l2,
    stored Samples.fifteen_world = (l1 ++ x :: l2)%list /\
    doc_id x = ObjectIdCodec.generate 3 /\ doc_user_id x = "u2" /\
    stored (snd (delete_chat "000000000000000000000003" (Some "u2")
                   Samples.fifteen_world)) = (l1 ++ l2)%list.
Proof.
  apply (delete_with_matching_owner_removes_chat "000000000000000000000003"
           (ObjectIdCodec.generate 3) "u2"
           (mkDocument (ObjectIdCodec.generate 3) "u2" [] 3)
           Samples.fifteen_world eq_refl).
  - discriminate.
  - right. right. left. reflexivity.
  - reflexivity.
  - reflexivity.
Defined.

(** [delete_chat] never removes a chat it was not asked for: a stored
    chat whose identifier is not the one given, or whose owner is not
    the non-empty [owner_id] given, is still stored after the call. *)
Theorem delete_keeps_every_other_chat (id : string) (owner : option string)
  (w : World) (x : Document) :
  In x (stored w) ->
  (forall oid, ObjectIdCodec.parse id = Some oid -> doc_id x <> oid) \/
  (exists o, owner = Some o /\ o <> "" /\ doc_user_id x <> o) ->
  In x (stored (snd (delete_chat id owner w))).
Proof.
  intros Hin Hother.
  destruct (ObjectIdCodec.parse id) as [oid|] eqn:Hparse.
  - assert (Hx : collection.matches (delete_query_of oid owner) x = false).
    { apply not_true_is_false. intros Hm.
      destruct Hother as [Hid|(o & -> & Hne & Hu)].
      - apply (Hid oid eq_refl). now apply matches_delete_query_id in Hm.
      - apply Hu. now apply matches_delete_query_owner in Hm. }
    rewrite (delete_chat_valid id oid owner w Hparse). cbv zeta.
    pose proof (remove_first_spec
                  (collection.matches (delete_query_of oid owner)) (stored w)) as H.
    destruct (List.find _ _) as [d|].
    + destruct H as (l1 & l2 & Hw & _ & Hd & Hr). rewrite Hr.
      cbn.
      rewrite Hw in Hin. apply in_app_or in Hin as [Hin|[<-|Hin]].
      * apply in_or_app. now left.
      * congruence.
      * apply in_or_app. now right.
    + rewrite H. cbn. exact Hin.
  - assert (Hv : ObjectIdCodec.is_valid id = false)
      by (unfold ObjectIdCodec.is_valid; now rewrite Hparse).
    destruct (delete_chat_malformed_keeps_world id owner w Hv) as [e ->].
    exact Hin.
Qed.

Lemma delete_keeps_every_other_chat_witness :
  In (mkDocument (ObjectIdCodec.generate 255) "u1"
        [mkMessage "a" "hi" 5; mkMessage "b" "yo" 6] 1000)
     (stored (snd (delete_chat Samples.id_ff (Some "u2") Samples.one_chat_world))).
Proof.
  apply (delete_keeps_every_other_chat Samples.id_ff (Some "u2")
           Samples.one_chat_world).
  - left. reflexivity.
  - right. exists "u2". repeat split; discriminate.
Defined.

(** Once deleted, a chat is gone: when identifiers are unique and
    [delete_chat] succeeds, exactly one record was deleted, no stored
    chat carries the identifier any more, and [get_chat] on it raises
    "Chat not found" in its [try] block (answered with status 500). *)
Theorem deleted_chat_is_gone (id : string) (oid : ObjectId)
  (owner : option string) (w : World) (r : DeleteResponse) :
  unique_ids (stored w) ->
  ObjectIdCodec.parse id = Some oid ->
  fst (delete_chat id owner w) = inr r ->
  let w1 := snd (delete_chat id owner w) in
  dr_deleted_count r = 1 /\
  (forall x, In x (stored w1) -> doc_id x <> oid) /\
  fst (get_chat_body id w1) = inl (HTTPException 404 "Chat not found") /\
  fst (get_chat id w1)
    = inl (HTTPException 500
             ("Server error: " ++ str_exn (HTTPException 404 "Chat not found"))).
Proof.
  intros Hu Hparse. cbv zeta.
  rewrite (delete_chat_valid id oid owner w Hparse). cbv zeta.
  pose proof (remove_first_spec
                (collection.matches (delete_query_of oid owner)) (stored w)) as H.
  destruct (List.find _ _) as [d|].
  - destruct H as (l1 & l2 & Hw & _ & Hd & Hr). rewrite Hr. cbn.
    intros Hres. injection Hres as <-. cbn [dr_deleted_count].
    apply matches_delete_query_id in Hd.
    assert (Hgone : forall x, In x (l1 ++ l2)%list -> doc_id x <> oid).
    { intros x Hx Hid. unfold unique_ids in Hu.
      rewrite Hw, map_app in Hu. cbn [map] in Hu.
      apply NoDup_remove_2 in Hu. apply Hu.
      rewrite <- map_app, Hd, <- Hid. now apply in_map. }
    split; [reflexivity|]. split; [exact Hgone|].
    unfold get_chat, try_except.
    rewrite (get_chat_body_valid _ id oid Hparse). cbn [stored with_stored].
    rewrite (find_absent oid _ Hgone). split; reflexivity.
  - rewrite H. cbn. discriminate.
Qed.

Lemma deleted_chat_is_gone_witness :
  status_of_result
    (get_chat Samples.id_ff
       (snd (delete_chat Samples.id_ff None Samples.one_chat_world)))
  = Some 500.
Proof.
  assert (Hu : unique_ids (stored Samples.one_chat_world)).
  { unfold unique_ids. constructor; [intros []|constructor]. }
  destruct (deleted_chat_is_gone Samples.id_ff (ObjectIdCodec.generate 255) None
              Samples.one_chat_world
              {| dr_message := "Chat deleted successfully!";
                 dr_deleted_count := 1 |} Hu eq_refl eq_refl)
    as (_ & _ & _ & H).
  unfold status_of_result. rewrite H. reflexivity.
Defined.

End Deleting.


(* ------------------------------------------------------------------ *)
(** ** Pages *)

Module WindowFacts.

Lemma in_firstn {A} (n : nat) (l : list A) (x : A) : In x (firstn n l) -> In x l.
Proof.
  intros H. rewrite <- (firstn_skipn n l). apply in_or_app. now left.
Qed.

Lemma in_skipn {A} (n : nat) (l : list A) (x : A) : In x (skipn n l) -> In x l.
Proof.
  intros H. rewrite <- (firstn_skipn n l). apply in_or_app. now right.
Qed.


End WindowFacts.

Section Pages.
Import StoreFacts SortFacts WindowFacts.

(** The chats of a successful page, and that the page is in range. *)
Lemma get_user_chats_success (user : string) (page limit : Z) (w : World)
  (r : UserChatsResponse) :
  1 <= page -> 1 <= limit <= 100 ->
  fst (get_user_chats user page limit w) = inr r ->
  let total := Z.of_nat (List.length (chats_of_user user (stored w))) in
  uc_total_chats r = total /\
  (0 < total -> (page - 1) * limit < total) /\
  uc_chats r
  = map stringify_id
      (firstn (Z.to_nat limit)
         (skipn (Z.to_nat ((page - 1) * limit))
            (collection.sort_docs collection.created_desc
               (chats_of_user user (stored w))))).
Proof.
  intros Hpage Hlimit.
  pose proof (get_user_chats_body_runs user page limit w Hpage Hlimit) as Hrun.
  pose proof (total_pages_ceiling user limit w Hlimit) as Hceil.
  cbv zeta in Hrun, Hceil |- *.
  unfold get_user_chats, try_except. rewrite Hrun. clear Hrun.
  destruct (_ && _) eqn:Hc; [discriminate|].
  cbn [fst]. intros H. injection H as <-.
  cbn [uc_total_chats uc_chats]. repeat split.
  intros Hpos. apply andb_false_iff in Hc as [Hc|Hc].
  - rewrite Z.gtb_ltb in Hc. apply Z.ltb_ge in Hc. nia.
  - rewrite Z.gtb_ltb in Hc. apply Z.ltb_ge in Hc. nia.
Qed.

(** A successful page holds as many chats as are left from its first
    position on, and [limit] at most: the number of returned chats is
    [min limit (total_chats - (page-1)*limit)], or none when the user
    has no chat; so a page of a user who has chats is never empty. *)
Theorem page_length_is_what_is_left (user : string) (page limit : Z) (w : World)
  (r : UserChatsResponse) :
  1 <= page -> 1 <= limit <= 100 ->
  fst (get_user_chats user page limit w) = inr r ->
  Z.of_nat (List.length (uc_chats r))
    = Z.max 0 (Z.min limit (uc_total_chats r - (page - 1) * limit)) /\
  (0 < uc_total_chats r -> 1 <= Z.of_nat (List.length (uc_chats r)) <= limit).
Proof.
  intros Hpage Hlimit Hres.
  destruct (get_user_chats_success user page limit w r Hpage Hlimit Hres)
    as (Htot & Hrange & Hchats).
  assert (Hlen : Z.of_nat (List.length (uc_chats r))
                 = Z.max 0 (Z.min limit (uc_total_chats r - (page - 1) * limit))).
  { rewrite Hchats, length_map, length_firstn, length_skipn.
    rewrite (Permutation_length (sort_docs_perm _ _)), Htot. nia. }
  split; [exact Hlen|].
  intros Hpos. rewrite Htot in *. specialize (Hrange Hpos). lia.
Qed.

Lemma page_length_is_what_is_left_witness :
  exists r,
    fst (get_user_chats "u2" 2 10 Samples.fifteen_world) = inr r /\
    List.length (uc_chats r) = 5%nat /\
    Z.of_nat (List.length (uc_chats r))
      = Z.max 0 (Z.min 10 (uc_total_chats r - (2 - 1) * 10)) /\
    (0 < uc_total_chats r -> 1 <= Z.of_nat (List.length (uc_chats r)) <= 10).
Proof.
  eexists. split; [vm_compute; reflexivity|].
  split; [reflexivity|].
  apply (page_length_is_what_is_left "u2" 2 10 Samples.fifteen_world);
    [lia | lia | vm_compute; reflexivity].
Defined.

(** [get_user_chats] never returns a chat of another user, nor one that
    is not stored: every chat of a successful page is a stored chat of
    the requested user, its identifier in string form. *)
Theorem page_holds_only_users_stored_chats (user : string) (page limit : Z)
  (w : World) (r : UserChatsResponse) (c : ChatJson) :
  1 <= page -> 1 <= limit <= 100 ->
  fst (get_user_chats user page limit w) = inr r ->
  In c (uc_chats r) ->
  json_user_id c = user /\
  exists d, In d (stored w) /\ doc_user_id d = user /\ c = stringify_id d.
Proof.
  intros Hpage Hlimit Hres Hin.
  destruct (get_user_chats_success user page limit w r Hpage Hlimit Hres)
    as (_ & _ & Hchats).
  rewrite Hchats in Hin. apply in_map_iff in Hin as (d & <- & Hd).
  apply in_firstn, in_skipn in Hd.
  apply (Permutation_in _ (sort_docs_perm _ _)) in Hd.
  apply filter_In in Hd as [Hd Hu]. apply String.eqb_eq in Hu.
  split; [exact Hu|]. exists d. repeat split; assumption.
Qed.

Lemma page_holds_only_users_stored_chats_witness :
  json_user_id (stringify_id (mkDocument (ObjectIdCodec.generate 5) "u2" [] 5))
    = "u2" /\
  exists d, In d (stored Samples.fifteen_world) /\ doc_user_id d = "u2" /\
            stringify_id (mkDocument (ObjectIdCodec.generate 5) "u2" [] 5)
            = stringify_id d.
Proof.
  eapply (page_holds_only_users_stored_chats "u2" 2 10 Samples.fifteen_world _
            (stringify_id (mkDocument (ObjectIdCodec.generate 5) "u2" [] 5))
            ltac:(lia) ltac:(lia) eq_refl).
  left. reflexivity.
Defined.






End Pages.


(* ------------------------------------------------------------------ *)
(** ** Fetching, and listing what was stored *)

Section Fetching.
Import ObjectIdFacts StoreFacts.

Lemma bytes_fromhex_length (n : nat) :
  forall (s : string) (b : list byte),
    (String.length s <= n)%nat ->
    ObjectIdCodec.bytes_fromhex s = Some b ->
    String.length s = (2 * List.length b)%nat.
Proof.
  induction n as [|n IH]; intros s b Hn Hs.
  - destruct s; [|cbn in Hn; lia]. injection Hs as <-. reflexivity.
  - destruct s as [|h [|l r]]; cbn [ObjectIdCodec.bytes_fromhex] in Hs.
    + injection Hs as <-. reflexivity.
    + discriminate.
    + destruct (ObjectIdCodec.hex_val h); [|discriminate].
      destruct (ObjectIdCodec.hex_val l); [|discriminate].
      destruct (ObjectIdCodec.bytes_fromhex r) as [t|] eqn:Hr; [|discriminate].
      destruct (Byte.of_N _); [|discriminate].
      injection Hs as <-. cbn [String.length List.length] in *.
      rewrite (IH r t); [lia | lia | exact Hr].
Qed.

(** A parsed identifier has twelve bytes. *)
Lemma parse_length (s : string) (oid : ObjectId) :
  ObjectIdCodec.parse s = Some oid -> List.length oid = 12%nat.
Proof.
  unfold ObjectIdCodec.parse.
  destruct (String.length s =? 24)%nat eqn:Hlen; [|discriminate].
  apply Nat.eqb_eq in Hlen. intros H.
  apply (bytes_fromhex_length 24) in H; lia.
Qed.

(** [get_chat] succeeds exactly when the identifier is well formed and a
    stored chat carries it, and returns the first such chat. The [_id]
    of the response is the string form of the identifier, which may
    differ from the string given (in the case of its letters) but is
    well formed and fetches the same chat again. *)
Theorem get_chat_returns_fetchable_chat (id : string) (w : World) (r : ChatJson) :
  fst (get_chat id w) = inr r <->
  exists oid d,
    ObjectIdCodec.parse id = Some oid /\
    List.find (collection.matches (by_id oid)) (stored w) = Some d /\
    doc_id d = oid /\
    r = stringify_id d /\
    ObjectIdCodec.parse (json_id r) = Some oid /\
    fst (get_chat (json_id r) (snd (get_chat id w))) = inr r.
Proof.
  split.
  - destruct (ObjectIdCodec.parse id) as [oid|] eqn:Hparse.
    + unfold get_chat at 1 3, try_except.
      rewrite (get_chat_body_valid w id oid Hparse).
      destruct (List.find _ _) as [d|] eqn:Hfind; [|discriminate].
      cbn [fst snd]. intros H. injection H as <-.
      assert (Hid : doc_id d = oid).
      { apply find_some in Hfind as [_ Hm].
        rewrite matches_by_id in Hm. now apply eqb_eq. }
      assert (Hback : ObjectIdCodec.parse (json_id (stringify_id d)) = Some oid).
      { cbn [json_id stringify_id]. rewrite Hid.
        apply parse_to_str. eapply parse_length, Hparse. }
      exists oid, d. repeat split; auto.
      unfold get_chat, try_except.
      rewrite (get_chat_body_valid _ _ oid Hback). cbn [stored log].
      now rewrite Hfind.
    + unfold get_chat, try_except. rewrite get_chat_body_invalid; [discriminate|].
      unfold ObjectIdCodec.is_valid. now rewrite Hparse.
  - intros (oid & d & Hparse & Hfind & _ & -> & _ & _).
    unfold get_chat, try_except.
    rewrite (get_chat_body_valid w id oid Hparse), Hfind. reflexivity.
Qed.

Lemma get_chat_returns_fetchable_chat_witness :
  exists oid d,
    ObjectIdCodec.parse "0000000000000000000000FF" = Some oid /\
    List.find (collection.matches (by_id oid)) (stored Samples.one_chat_world)
      = Some d /\
    doc_id d = oid /\
    stringify_id d
    = {| json_id := Samples.id_ff;
         json_user_id := "u1";
         json_messages := [mkMessage "a" "hi" 5; mkMessage "b" "yo" 6];
         json_created_at := 1000 |}.
Proof.
  destruct (proj1 (get_chat_returns_fetchable_chat "0000000000000000000000FF"
                     Samples.one_chat_world
                     {| json_id := Samples.id_ff;
                        json_user_id := "u1";
                        json_messages := [mkMessage "a" "hi" 5; mkMessage "b" "yo" 6];
                        json_created_at := 1000 |}) eq_refl)
    as (oid & d & Hp & Hf & Hid & Hr & _ & _).
  exists oid, d. repeat split; auto.
Defined.

(** After a successful [store_chat] the first page of the chat's user
    can be listed, whatever the limit, and counts one chat more than
    were stored for that user before; the chats of every other user are
    what they were. *)
Theorem store_then_list_counts_new_chat (chat : Chat) (w w1 : World)
  (r : StoreChatResponse) (limit : Z) :
  store_chat chat w = (inr r, w1) ->
  1 <= limit <= 100 ->
  (exists page,
      fst (get_user_chats (user_id chat) 1 limit w1) = inr page /\
      uc_total_chats page
      = Z.of_nat (List.length (chats_of_user (user_id chat) (stored w))) + 1 /\
      1 <= uc_total_pages page) /\
  (forall u, u <> user_id chat ->
             chats_of_user u (stored w1) = chats_of_user u (stored w)).
Proof.
  intros Hstore Hlimit.
  apply store_chat_success in Hstore as (Hst & _ & _).
  assert (Hchats : forall u,
             chats_of_user u (stored w1)
             = (chats_of_user u (stored w)
                ++ (if String.eqb (user_id chat) u
                    then [mkDocument (ObjectIdCodec.generate (oid_seed w))
                            (user_id chat) (messages chat) (clock w)]
                    else []))%list).
  { intros u. unfold chats_of_user. rewrite Hst, filter_app. cbn.
    now destruct (String.eqb (user_id chat) u). }
  split.
  - pose proof (get_user_chats_body_runs (user_id chat) 1 limit w1
                  ltac:(lia) Hlimit) as Hrun.
    pose proof (total_pages_ceiling (user_id chat) limit w1 Hlimit) as Hceil.
    cbv zeta in Hrun, Hceil.
    assert (Hlen : Z.of_nat (List.length (chats_of_user (user_id chat) (stored w1)))
                   = Z.of_nat (List.length
                                 (chats_of_user (user_id chat) (stored w))) + 1).
    { rewrite Hchats, String.eqb_refl, length_app. cbn. lia. }
    unfold get_user_chats, try_except. rewrite Hrun. clear Hrun.
    replace (1 >? _) with false
      by (symmetry; rewrite Z.gtb_ltb; apply Z.ltb_ge; nia).
    cbn [andb fst]. eexists. split; [reflexivity|].
    cbn [uc_total_chats uc_total_pages]. split; [exact Hlen|nia].
  - intros u Hu. rewrite Hchats.
    destruct (String.eqb_spec (user_id chat) u); [congruence|apply app_nil_r].
Qed.

Lemma store_then_list_counts_new_chat_witness :
  (exists page,
      fst (get_user_chats "u1" 1 10 Samples.one_chat_world) = inr page /\
      uc_total_chats page
      = Z.of_nat (List.length (chats_of_user "u1" (stored Samples.empty_world))) + 1 /\
      1 <= uc_total_pages page) /\
  (forall u, u <> "u1" ->
             chats_of_user u (stored Samples.one_chat_world)
             = chats_of_user u (stored Samples.empty_world)).
Proof.
  apply (store_then_list_counts_new_chat Samples.hi_chat Samples.empty_world
           Samples.one_chat_world
           {| sc_message := "Chat stored successfully!";
              sc_chat_id := Samples.id_ff |} 10 eq_refl).
  lia.
Defined.

End Fetching.
